(** * The todo CRUD service: handlers over the [todos] table

    A shallow embedding of the server handlers ([createTodo], [getTodo],
    [updateTodo]) and of the store calls they issue, followed by the
    properties of the CRUD contract.

    Conventions.
    - A JS [number] holding an id is a [Z]; a [Date] is its [getTime()]
      value, a [Z] count of milliseconds.
    - An optional property [p?: T] is an [option T] ([None] is [undefined]);
      [T | null] is an [option T] as well ([None] is [null]), so the
      property [description?: string | null] is an [option (option string)]:
      [None] is [undefined], [Some None] is [null].
    - The table is the list of its rows in insertion order.
    - [new Date()] reads the wall clock: every handler takes the reading(s)
      it makes as extra leading arguments, in the order the source
      evaluates them.
    - A handler returns its result paired with the table it leaves behind.
      Store failures (the [catch] branches, which log and rethrow) are
      outside the model: the store here is total. *)

From Stdlib Require Import ZArith List String Bool Lia.
From Stdlib Require Import Permutation Sorting.Sorted.
Import ListNotations.

Local Open Scope string_scope.
Local Open Scope Z_scope.

(** ** Data model *)

(** [Todo], the row type of the table and the result type of the handlers. *)
Module Todo.
Record t : Type := mk {
  id : Z;
  title : string;
  description : option string;
  completed : bool;
  created_at : Z;
  updated_at : Z
}.
End Todo.

(** [CreateTodoInput]: [{ title: string, description?: string | null }]. *)
Module CreateTodoInput.
Record t : Type := mk {
  title : string;
  description : option (option string)
}.
End CreateTodoInput.

(** [GetTodoInput]: [{ id: number }]. *)
Module GetTodoInput.
Record t : Type := mk { id : Z }.
End GetTodoInput.

(** [UpdateTodoInput]:
    [{ id: number, title?: string, description?: string | null,
       completed?: boolean }]. *)
Module UpdateTodoInput.
Record t : Type := mk {
  id : Z;
  title : option string;
  description : option (option string);
  completed : option bool
}.
End UpdateTodoInput.

(** The [updateData] object of [updateTodo]:
    [Partial<{ title; description; completed; updated_at }>]. *)
Module UpdateData.
Record t : Type := mk {
  title : option string;
  description : option (option string);
  completed : option bool;
  updated_at : option Z
}.

Definition set_title (v : string) (u : t) : t :=
  mk (Some v) (description u) (completed u) (updated_at u).
Definition set_description (v : option string) (u : t) : t :=
  mk (title u) (Some v) (completed u) (updated_at u).
Definition set_completed (v : bool) (u : t) : t :=
  mk (title u) (description u) (Some v) (updated_at u).
End UpdateData.

Definition Table : Type := list Todo.t.

(** ** Store calls *)

(** [eq(todosTable.id, i)] as a row predicate. *)
Definition eq_id (i : Z) (r : Todo.t) : bool := Todo.id r =? i.

(** [db.select().from(todosTable).where(eq(todosTable.id, i)).execute()] *)
Definition db_select_where_id (i : Z) (tbl : Table) : list Todo.t :=
  filter (eq_id i) tbl.

(** The effect of [.set(u)] on one row: the columns present in [u] are
    overwritten, the others (among them [id] and [created_at], which [u]
    cannot name) are kept. *)
Definition set_row (u : UpdateData.t) (r : Todo.t) : Todo.t :=
  Todo.mk
    (Todo.id r)
    (match UpdateData.title u with Some v => v | None => Todo.title r end)
    (match UpdateData.description u with
     | Some v => v | None => Todo.description r end)
    (match UpdateData.completed u with
     | Some v => v | None => Todo.completed r end)
    (Todo.created_at r)
    (match UpdateData.updated_at u with
     | Some v => v | None => Todo.updated_at r end).

(** [db.update(todosTable).set(u).where(eq(todosTable.id, i)).returning()
      .execute()]: the rows returned and the table afterwards. *)
Definition db_update_set_where_id (u : UpdateData.t) (i : Z) (tbl : Table)
  : list Todo.t * Table :=
  (map (set_row u) (filter (eq_id i) tbl),
   map (fun r => if eq_id i r then set_row u r else r) tbl).

(** ** Handlers *)

(** [input.description || null]: [undefined], [null] and the empty string
    are falsy. *)
Definition or_null (d : option (option string)) : option string :=
  match d with
  | None => None
  | Some None => None
  | Some (Some s) => if String.eqb s "" then None else Some s
  end.

(** [createTodo] (handlers/create_todo): builds the record it resolves to
    and issues no store call.  [t1] and [t2] are the two [new Date()]
    readings, [created_at] first. *)
Definition createTodo (t1 t2 : Z) (input : CreateTodoInput.t) (tbl : Table)
  : Todo.t * Table :=
  (Todo.mk 0
           (CreateTodoInput.title input)
           (or_null (CreateTodoInput.description input))
           false
           t1
           t2,
   tbl).

(** [getTodo] (handlers/get_todo). *)
Definition getTodo (input : GetTodoInput.t) (tbl : Table)
  : option Todo.t * Table :=
  let result := db_select_where_id (GetTodoInput.id input) tbl in
  (match result with
   | [] => None
   | r :: _ => Some r
   end,
   tbl).

(** [updateTodo] (handlers/update_todo); [now] is the [new Date()] reading. *)
Definition updateTodo (now : Z) (input : UpdateTodoInput.t) (tbl : Table)
  : option Todo.t * Table :=
  let updateData := UpdateData.mk None None None (Some now) in
  let updateData :=
    match UpdateTodoInput.title input with
    | Some v => UpdateData.set_title v updateData
    | None => updateData
    end in
  let updateData :=
    match UpdateTodoInput.description input with
    | Some v => UpdateData.set_description v updateData
    | None => updateData
    end in
  let updateData :=
    match UpdateTodoInput.completed input with
    | Some v => UpdateData.set_completed v updateData
    | None => updateData
    end in
  let '(result, tbl') :=
    db_update_set_where_id updateData (UpdateTodoInput.id input) tbl in
  match result with
  | [] => (None, tbl')
  | r :: _ => (Some r, tbl')
  end.


(** ** Parts of the service that are not among the sources *)

(** [DeleteTodoInput]: [{ id: number }]. *)
Module DeleteTodoInput.
Record t : Type := mk { id : Z }.
End DeleteTodoInput.

(** Modelled from the spec: the handler [deleteTodo] (handlers/delete_todo),
    of which only the tests are among the sources.  Spec 4.1: "Delete(id):
    boolean success flag.  True if a record existed and was removed; false
    if no matching record [...].  Deleting one record must not affect any
    other record (point deletion, no cascade)." *)
Definition deleteTodo (input : DeleteTodoInput.t) (tbl : Table)
  : bool * Table :=
  let i := DeleteTodoInput.id input in
  (existsb (eq_id i) tbl, filter (fun r => negb (eq_id i r)) tbl).

(** Placing one row into a sequence that is already newest first: the row
    goes in front of the first row that is not newer than it, hence in
    front of the rows it ties with. *)
Fixpoint insert_newest_first (r : Todo.t) (l : list Todo.t) : list Todo.t :=
  match l with
  | [] => [r]
  | x :: l' =>
      if Todo.created_at x <=? Todo.created_at r
      then r :: x :: l'
      else x :: insert_newest_first r l'
  end.

(** Modelled from the spec: the handler [getTodos] (handlers/get_todos), of
    which only the tests are among the sources.  Spec 4.1: "GetAll():
    ordered sequence of Todo, newest first by created_at (ties broken by
    insertion order); empty sequence when store is empty.  No side
    effects, no pagination."  Rows that tie on [created_at] come out in the
    order the table holds them. *)
Definition getTodos (tbl : Table) : list Todo.t * Table :=
  (fold_right insert_newest_first [] tbl, tbl).

(** The body of a create request as it arrives, before validation:
    [title] may be missing. *)
Module CreateRequest.
Record t : Type := mk {
  title : option string;
  description : option (option string)
}.
End CreateRequest.

(** Modelled from the spec: the input schema of create ([../schema], from
    which the sources import only the type [CreateTodoInput]).  Spec 4.1:
    "title must be non-empty (enforced before persistence)"; spec 7:
    "validation failure: empty/missing title on create, should be rejected
    before reaching the store". *)
Definition createTodoInputSchema (raw : CreateRequest.t)
  : option CreateTodoInput.t :=
  match CreateRequest.title raw with
  | None => None
  | Some s =>
      if String.eqb s ""
      then None
      else Some (CreateTodoInput.mk s (CreateRequest.description raw))
  end.

Inductive CreateOutcome : Type :=
| ValidationFailure
| Created (todo : Todo.t).

(** Modelled from the spec: the create operation of the remote-call
    surface, spec 2: "Control flow is strictly request, validate, persist,
    respond".  The handler runs on validated input only. *)
Definition create (t1 t2 : Z) (raw : CreateRequest.t) (tbl : Table)
  : CreateOutcome * Table :=
  match createTodoInputSchema raw with
  | None => (ValidationFailure, tbl)
  | Some input =>
      let '(todo, tbl') := createTodo t1 t2 input tbl in
      (Created todo, tbl')
  end.

(** ** The service as a transition system *)

(** One call of one of the five operations, with the clock readings the
    call makes. *)
Inductive Request : Type :=
| ReqCreate (t1 t2 : Z) (input : CreateTodoInput.t)
| ReqGetOne (input : GetTodoInput.t)
| ReqGetAll
| ReqUpdate (now : Z) (input : UpdateTodoInput.t)
| ReqDelete (input : DeleteTodoInput.t).

(** The table a call leaves behind. *)
Definition step (tbl : Table) (req : Request) : Table :=
  match req with
  | ReqCreate t1 t2 input => snd (createTodo t1 t2 input tbl)
  | ReqGetOne input => snd (getTodo input tbl)
  | ReqGetAll => snd (getTodos tbl)
  | ReqUpdate now input => snd (updateTodo now input tbl)
  | ReqDelete input => snd (deleteTodo input tbl)
  end.

Definition run (reqs : list Request) (tbl : Table) : Table :=
  fold_left step reqs tbl.

(** The clock readings of a call, in the order they are made. *)
Definition readings (req : Request) : list Z :=
  match req with
  | ReqCreate t1 t2 _ => [t1; t2]
  | ReqUpdate now _ => [now]
  | _ => []
  end.

(** A clock that never runs backwards: starting from [c], each reading is
    at least the one before.  Equal consecutive readings are allowed (the
    clock counts milliseconds). *)
Fixpoint monotone_from (c : Z) (ts : list Z) : Prop :=
  match ts with
  | [] => True
  | t :: ts' => c <= t /\ monotone_from t ts'
  end.

(** The clock reading after the readings [ts], when it was [c] before. *)
Definition last_reading (c : Z) (ts : list Z) : Z :=
  fold_left (fun _ t => t) ts c.

(** [a] may stand before [b] in a newest-first listing. *)
Definition not_older (a b : Todo.t) : Prop :=
  Todo.created_at b <= Todo.created_at a.

(** What identifies a row for good: its id and its creation time. *)
Definition row_key (r : Todo.t) : Z * Z := (Todo.id r, Todo.created_at r).

(** The timestamp invariant of a row. *)
Definition timestamps_ordered (r : Todo.t) : Prop :=
  Todo.created_at r <= Todo.updated_at r.

(** ** Auxiliary definitions for the statements *)

(** The [updateData] object [updateTodo] ends up with, in closed form. *)
Definition updateData_of (now : Z) (input : UpdateTodoInput.t) : UpdateData.t :=
  UpdateData.mk (UpdateTodoInput.title input)
                (UpdateTodoInput.description input)
                (UpdateTodoInput.completed input)
                (Some now).

Definition id_of (i : Z) : GetTodoInput.t := GetTodoInput.mk i.

(** "A successful update moves [updated_at] strictly forward", for the
    update made at clock reading [now] with [input] on [tbl]. *)
Definition updated_at_strictly_later
           (now : Z) (input : UpdateTodoInput.t) (tbl : Table) : Prop :=
  forall r r',
    fst (getTodo (id_of (UpdateTodoInput.id input)) tbl) = Some r ->
    fst (updateTodo now input tbl) = Some r' ->
    Todo.updated_at r < Todo.updated_at r'.

(** ** Sample data (the rows and inputs of the handlers' tests) *)

Definition original_todo : Todo.t :=
  Todo.mk 1 "Original Todo" (Some "Original description") false 1000 1000.

Definition basicInput : CreateTodoInput.t :=
  CreateTodoInput.mk "Test Todo" (Some (Some "A todo for testing")).

Definition completed_only : UpdateTodoInput.t :=
  UpdateTodoInput.mk 1 None None (Some true).

Definition three_todos : Table :=
  [ Todo.mk 1 "First Todo" (Some "First description") false 1000 1000;
    Todo.mk 2 "Second Todo" (Some "Second description") true 1010 1010;
    Todo.mk 3 "Third Todo" None false 1010 1020 ].

Definition sample_run : list Request :=
  [ ReqUpdate 1000 completed_only;
    ReqCreate 1005 1006 basicInput;
    ReqGetAll;
    ReqGetOne (id_of 1);
    ReqUpdate 1010 (UpdateTodoInput.mk 1 (Some "") (Some None) None);
    ReqDelete (DeleteTodoInput.mk 2) ].

(** ** The client component [App] *)

(** [String.prototype.trim].  A string of the model stands for the JS
    string with the same character codes, all below 256; among those, the
    white space and line terminator characters that [trim] strips are TAB,
    LF, VT, FF, CR, SP and NBSP. *)
Definition is_whitespace (c : Ascii.ascii) : bool :=
  let n := Ascii.nat_of_ascii c in
  existsb (Nat.eqb n) [9; 10; 11; 12; 13; 32; 160]%nat.

Fixpoint trimStart (s : string) : string :=
  match s with
  | EmptyString => EmptyString
  | String c s' => if is_whitespace c then trimStart s' else s
  end.

Fixpoint trimEnd (s : string) : string :=
  match s with
  | EmptyString => EmptyString
  | String c s' =>
      match trimEnd s' with
      | EmptyString => if is_whitespace c then EmptyString
                       else String c EmptyString
      | rest => String c rest
      end
  end.

Definition trim (s : string) : string := trimEnd (trimStart s).

(** [!s]: a string is falsy when it is empty. *)
Definition falsy (s : string) : bool := String.eqb s "".

(** A string all of whose characters [trim] strips. *)
Fixpoint blank (s : string) : bool :=
  match s with
  | EmptyString => true
  | String c s' => is_whitespace c && blank s'
  end.

Module App.

(** How an awaited remote call settles. *)
Inductive Remote (A : Type) : Type :=
| Resolved (a : A)
| Rejected.
Arguments Resolved {A} a.
Arguments Rejected {A}.

(** [editFormData], a [Partial<UpdateTodoInput>] of which the component
    writes and reads the keys [title] and [description] only. *)
Module EditFormData.
Record t : Type := mk {
  title : option string;
  description : option (option string)
}.
End EditFormData.

(** The [useState] cells of the component. *)
Record State : Type := mkState {
  todos : list Todo.t;
  isLoading : bool;
  editingTodo : option Todo.t;
  isCreateDialogOpen : bool;
  isEditDialogOpen : bool;
  createFormData : CreateTodoInput.t;
  editFormData : EditFormData.t
}.

Definition initial : State :=
  mkState [] false None false false
          (CreateTodoInput.mk "" (Some None))
          (EditFormData.mk (Some "") (Some None)).

Definition setTodos (f : list Todo.t -> list Todo.t) (st : State) : State :=
  mkState (f (todos st)) (isLoading st) (editingTodo st)
          (isCreateDialogOpen st) (isEditDialogOpen st)
          (createFormData st) (editFormData st).

Definition setIsLoading (b : bool) (st : State) : State :=
  mkState (todos st) b (editingTodo st)
          (isCreateDialogOpen st) (isEditDialogOpen st)
          (createFormData st) (editFormData st).

Definition setEditingTodo (e : option Todo.t) (st : State) : State :=
  mkState (todos st) (isLoading st) e
          (isCreateDialogOpen st) (isEditDialogOpen st)
          (createFormData st) (editFormData st).

Definition setIsCreateDialogOpen (b : bool) (st : State) : State :=
  mkState (todos st) (isLoading st) (editingTodo st)
          b (isEditDialogOpen st)
          (createFormData st) (editFormData st).

Definition setIsEditDialogOpen (b : bool) (st : State) : State :=
  mkState (todos st) (isLoading st) (editingTodo st)
          (isCreateDialogOpen st) b
          (createFormData st) (editFormData st).

Definition setCreateFormData (f : CreateTodoInput.t -> CreateTodoInput.t)
           (st : State) : State :=
  mkState (todos st) (isLoading st) (editingTodo st)
          (isCreateDialogOpen st) (isEditDialogOpen st)
          (f (createFormData st)) (editFormData st).

Definition setEditFormData (f : EditFormData.t -> EditFormData.t)
           (st : State) : State :=
  mkState (todos st) (isLoading st) (editingTodo st)
          (isCreateDialogOpen st) (isEditDialogOpen st)
          (createFormData st) (f (editFormData st)).

(** [e.target.value || null] *)
Definition value_or_null (v : string) : option string :=
  if falsy v then None else Some v.

(** The [onChange] handlers of the create form. *)
Definition onChangeCreateTitle (v : string) : State -> State :=
  setCreateFormData
    (fun prev => CreateTodoInput.mk v (CreateTodoInput.description prev)).

Definition onChangeCreateDescription (v : string) : State -> State :=
  setCreateFormData
    (fun prev =>
       CreateTodoInput.mk (CreateTodoInput.title prev)
                          (Some (value_or_null v))).

(** The [onChange] handlers of the edit form. *)
Definition onChangeEditTitle (v : string) : State -> State :=
  setEditFormData
    (fun prev => EditFormData.mk (Some v) (EditFormData.description prev)).

Definition onChangeEditDescription (v : string) : State -> State :=
  setEditFormData
    (fun prev =>
       EditFormData.mk (EditFormData.title prev) (Some (value_or_null v))).

(** The handlers below are given the remote call they await as a function
    on the state [S] of whatever serves it; they return the component
    state once they have settled, and the server state. *)

(** [loadTodos] *)
Definition loadTodos {S : Type}
           (query : S -> Remote (list Todo.t) * S)
           (st : State) (srv : S) : State * S :=
  let '(res, srv') := query srv in
  match res with
  | Resolved result => (setTodos (fun _ => result) st, srv')
  | Rejected => (st, srv')
  end.

(** [handleCreateTodo] *)
Definition handleCreateTodo {S : Type}
           (mutate : CreateTodoInput.t -> S -> Remote Todo.t * S)
           (st : State) (srv : S) : State * S :=
  if falsy (trim (CreateTodoInput.title (createFormData st)))
  then (st, srv)
  else
    let st := setIsLoading true st in
    let '(res, srv') := mutate (createFormData st) srv in
    match res with
    | Resolved newTodo =>
        let st := setTodos (fun prev => newTodo :: prev) st in
        let st := setCreateFormData
                    (fun _ => CreateTodoInput.mk "" (Some None)) st in
        let st := setIsCreateDialogOpen false st in
        (setIsLoading false st, srv')
    | Rejected => (setIsLoading false st, srv')
    end.

(** [prev.map(t => t.id === id ? updatedTodo : t)] *)
Definition replace_by_id (i : Z) (updatedTodo : Todo.t) (prev : list Todo.t)
  : list Todo.t :=
  map (fun t => if Todo.id t =? i then updatedTodo else t) prev.

(** [handleToggleComplete] *)
Definition handleToggleComplete {S : Type}
           (mutate : UpdateTodoInput.t -> S -> Remote (option Todo.t) * S)
           (todo : Todo.t) (st : State) (srv : S) : State * S :=
  let '(res, srv') :=
    mutate (UpdateTodoInput.mk (Todo.id todo) None None
                               (Some (negb (Todo.completed todo)))) srv in
  match res with
  | Resolved (Some updatedTodo) =>
      (setTodos (replace_by_id (Todo.id todo) updatedTodo) st, srv')
  | Resolved None => (st, srv')
  | Rejected => (st, srv')
  end.

(** [handleEditTodo] *)
Definition handleEditTodo {S : Type}
           (mutate : UpdateTodoInput.t -> S -> Remote (option Todo.t) * S)
           (st : State) (srv : S) : State * S :=
  match editingTodo st, EditFormData.title (editFormData st) with
  | None, _ => (st, srv)
  | Some _, None => (st, srv)
  | Some editing, Some title =>
      if falsy (trim title) then (st, srv)
      else
        let st := setIsLoading true st in
        let '(res, srv') :=
          mutate (UpdateTodoInput.mk
                    (Todo.id editing) (Some title)
                    (EditFormData.description (editFormData st)) None) srv in
        match res with
        | Resolved (Some updatedTodo) =>
            let st := setTodos (replace_by_id (Todo.id editing) updatedTodo)
                               st in
            let st := setIsEditDialogOpen false st in
            let st := setEditingTodo None st in
            let st := setEditFormData
                        (fun _ => EditFormData.mk (Some "") (Some None)) st in
            (setIsLoading false st, srv')
        | Resolved None => (setIsLoading false st, srv')
        | Rejected => (setIsLoading false st, srv')
        end
  end.

(** [handleDeleteTodo] *)
Definition handleDeleteTodo {S : Type}
           (mutate : DeleteTodoInput.t -> S -> Remote bool * S)
           (todoId : Z) (st : State) (srv : S) : State * S :=
  let '(res, srv') := mutate (DeleteTodoInput.mk todoId) srv in
  match res with
  | Resolved true =>
      (setTodos (filter (fun t => negb (Todo.id t =? todoId))) st, srv')
  | Resolved false => (st, srv')
  | Rejected => (st, srv')
  end.

(** [openEditDialog] *)
Definition openEditDialog (todo : Todo.t) (st : State) : State :=
  let st := setEditingTodo (Some todo) st in
  let st := setEditFormData
              (fun _ => EditFormData.mk (Some (Todo.title todo))
                                        (Some (Todo.description todo))) st in
  setIsEditDialogOpen true st.

(** The numbers of the two header badges. *)
Definition completedCount (st : State) : Z :=
  Z.of_nat (List.length (filter Todo.completed (todos st))).

Definition totalCount (st : State) : Z := Z.of_nat (List.length (todos st)).

Definition remaining (st : State) : Z := totalCount st - completedCount st.

End App.

(** The remote call [trpc.updateTodo.mutate] when the server runs the
    handler [updateTodo] on the table at clock reading [now].  The router
    between the two is not among the sources; the call is taken to reach
    the handler with the request as sent. *)
Definition remote_updateTodo (now : Z) (input : UpdateTodoInput.t)
           (tbl : Table) : App.Remote (option Todo.t) * Table :=
  let '(result, tbl') := updateTodo now input tbl in
  (App.Resolved result, tbl').

(** ** Auxiliary definitions for the statements on updates *)

(** [b] if present, else [a]. *)
Definition later {A : Type} (a b : option A) : option A :=
  match b with
  | Some _ => b
  | None => a
  end.

(** One request standing for [in1] followed by [in2] on the id of [in2]. *)
Definition merge_inputs (in1 in2 : UpdateTodoInput.t) : UpdateTodoInput.t :=
  UpdateTodoInput.mk
    (UpdateTodoInput.id in2)
    (later (UpdateTodoInput.title in1) (UpdateTodoInput.title in2))
    (later (UpdateTodoInput.description in1) (UpdateTodoInput.description in2))
    (later (UpdateTodoInput.completed in1) (UpdateTodoInput.completed in2)).

Definition sample_state : App.State :=
  App.mkState three_todos false None false false
              (CreateTodoInput.mk "" (Some None))
              (App.EditFormData.mk (Some "") (Some None)).

(** The remote call [trpc.createTodo.mutate] when the server runs the
    handler [createTodo] on the table, with clock readings [t1], [t2];
    the call is taken to reach the handler, as for [remote_updateTodo]. *)
Definition remote_createTodo (t1 t2 : Z) (input : CreateTodoInput.t)
           (tbl : Table) : App.Remote Todo.t * Table :=
  let '(todo, tbl') := createTodo t1 t2 input tbl in
  (App.Resolved todo, tbl').

(** The component after two spaces were typed as title of the create
    form. *)
Definition blank_title_state : App.State :=
  App.onChangeCreateTitle "  " App.initial.

(** The component after the edit dialog was opened on a todo and its title
    replaced by a space. *)
Definition blank_edit_state : App.State :=
  App.onChangeEditTitle " " (App.openEditDialog original_todo App.initial).

(** * Properties *)

(** ** The handlers on the inputs of their tests *)

Example updateTodo_title_only :
  updateTodo 1010 (UpdateTodoInput.mk 1 (Some "Updated Title") None None)
             [original_todo]
  = (Some (Todo.mk 1 "Updated Title" (Some "Original description") false
                   1000 1010),
     [Todo.mk 1 "Updated Title" (Some "Original description") false
              1000 1010]).
Proof. reflexivity. Qed.

Example updateTodo_description_to_null :
  fst (updateTodo 1010 (UpdateTodoInput.mk 1 None (Some None) None)
                  [original_todo])
  = Some (Todo.mk 1 "Original Todo" None false 1000 1010).
Proof. reflexivity. Qed.

Example updateTodo_one_among_three :
  updateTodo 1030 (UpdateTodoInput.mk 2 None (Some (Some "New description"))
                                      (Some false))
             three_todos
  = (Some (Todo.mk 2 "Second Todo" (Some "New description") false 1010 1030),
     [ Todo.mk 1 "First Todo" (Some "First description") false 1000 1000;
       Todo.mk 2 "Second Todo" (Some "New description") false 1010 1030;
       Todo.mk 3 "Third Todo" None false 1010 1020 ]).
Proof. reflexivity. Qed.

Example getTodo_second_of_three :
  fst (getTodo (id_of 2) three_todos)
  = Some (Todo.mk 2 "Second Todo" (Some "Second description") true 1010 1010).
Proof. reflexivity. Qed.

Example getTodo_absent : getTodo (id_of 999) three_todos = (None, three_todos).
Proof. reflexivity. Qed.

Example createTodo_undefined_description :
  fst (createTodo 1000 1001
         (CreateTodoInput.mk "Todo with undefined description" None) [])
  = Todo.mk 0 "Todo with undefined description" None false 1000 1001.
Proof. reflexivity. Qed.

Example deleteTodo_second_of_three :
  deleteTodo (DeleteTodoInput.mk 2) three_todos
  = (true,
     [ Todo.mk 1 "First Todo" (Some "First description") false 1000 1000;
       Todo.mk 3 "Third Todo" None false 1010 1020 ]).
Proof. reflexivity. Qed.

Example deleteTodo_absent :
  deleteTodo (DeleteTodoInput.mk 999) three_todos = (false, three_todos).
Proof. reflexivity. Qed.

Example getTodos_three :
  fst (getTodos three_todos)
  = [ Todo.mk 2 "Second Todo" (Some "Second description") true 1010 1010;
      Todo.mk 3 "Third Todo" None false 1010 1020;
      Todo.mk 1 "First Todo" (Some "First description") false 1000 1000 ].
Proof. reflexivity. Qed.

Example create_valid_request :
  create 1000 1000 (CreateRequest.mk (Some "Test Todo") None) []
  = (Created (Todo.mk 0 "Test Todo" None false 1000 1000), []).
Proof. reflexivity. Qed.

(** ** Store calls *)

Lemma eq_id_true (i : Z) (r : Todo.t) : eq_id i r = true <-> Todo.id r = i.
Proof. unfold eq_id. apply Z.eqb_eq. Qed.

Lemma eq_id_false (i : Z) (r : Todo.t) : eq_id i r = false <-> Todo.id r <> i.
Proof. unfold eq_id. apply Z.eqb_neq. Qed.

Lemma eq_id_set_row (u : UpdateData.t) (i : Z) (r : Todo.t) :
  eq_id i (set_row u r) = eq_id i r.
Proof. reflexivity. Qed.

(** No row matches: the select is empty. *)
Lemma select_none (i : Z) (tbl : Table) :
  (forall r, In r tbl -> Todo.id r <> i) -> db_select_where_id i tbl = [].
Proof.
  unfold db_select_where_id.
  induction tbl as [|x tbl IH]; intros Hno; simpl; [reflexivity|].
  assert (Hx : eq_id i x = false) by (apply eq_id_false, Hno; now left).
  rewrite Hx. apply IH. intros r Hr. apply Hno. now right.
Qed.

(** Some row matches: the select has a first row, and it matches. *)
Lemma select_some (i : Z) (tbl : Table) (r : Todo.t) :
  In r tbl -> Todo.id r = i ->
  exists r0 rest,
    db_select_where_id i tbl = r0 :: rest /\ In r0 tbl /\ Todo.id r0 = i.
Proof.
  intros Hin Hid.
  assert (Hf : In r (db_select_where_id i tbl)).
  { apply filter_In. split; [assumption | now apply eq_id_true]. }
  destruct (db_select_where_id i tbl) as [|r0 rest] eqn:E; [contradiction|].
  exists r0, rest. split; [reflexivity|].
  assert (H0 : In r0 (db_select_where_id i tbl)) by (rewrite E; now left).
  apply filter_In in H0. destruct H0 as [H0 H1].
  split; [assumption | now apply eq_id_true].
Qed.

(** The update leaves a table without matching rows as it is. *)
Lemma update_table_none (u : UpdateData.t) (i : Z) (tbl : Table) :
  db_select_where_id i tbl = [] ->
  snd (db_update_set_where_id u i tbl) = tbl.
Proof.
  unfold db_select_where_id, db_update_set_where_id. simpl.
  induction tbl as [|x tbl IH]; simpl; [reflexivity|].
  destruct (eq_id i x) eqn:E; [discriminate|].
  intros Hf. now rewrite IH.
Qed.

(** After the update, the rows with the updated id are the patched rows. *)
Lemma select_update_same (u : UpdateData.t) (i : Z) (tbl : Table) :
  db_select_where_id i (snd (db_update_set_where_id u i tbl))
  = fst (db_update_set_where_id u i tbl).
Proof.
  unfold db_select_where_id, db_update_set_where_id. simpl.
  induction tbl as [|x tbl IH]; simpl; [reflexivity|].
  destruct (eq_id i x) eqn:E; simpl.
  - rewrite eq_id_set_row, E. simpl. now rewrite IH.
  - now rewrite E.
Qed.

(** After the update, the rows with another id are what they were. *)
Lemma select_update_other (u : UpdateData.t) (i j : Z) (tbl : Table) :
  j <> i ->
  db_select_where_id j (snd (db_update_set_where_id u i tbl))
  = db_select_where_id j tbl.
Proof.
  intros Hji. unfold db_select_where_id, db_update_set_where_id. simpl.
  induction tbl as [|x tbl IH]; simpl; [reflexivity|].
  destruct (eq_id i x) eqn:E.
  - rewrite eq_id_set_row.
    assert (Hj : eq_id j x = false).
    { apply eq_id_false. apply eq_id_true in E. congruence. }
    now rewrite Hj.
  - now rewrite IH.
Qed.

(** Where the rows of the updated table come from. *)
Lemma update_table_In (u : UpdateData.t) (i : Z) (tbl : Table) (r' : Todo.t) :
  In r' (snd (db_update_set_where_id u i tbl)) ->
  exists r,
    In r tbl /\
    ((Todo.id r <> i /\ r' = r) \/ (Todo.id r = i /\ r' = set_row u r)).
Proof.
  unfold db_update_set_where_id. simpl. intros H.
  apply in_map_iff in H. destruct H as [r [Hr Hin]].
  exists r. split; [assumption|].
  destruct (eq_id i r) eqn:E.
  - right. split; [now apply eq_id_true | now symmetry].
  - left. split; [now apply eq_id_false | now symmetry].
Qed.

(** A matching row is stored patched. *)
Lemma update_table_In_patched (u : UpdateData.t) (i : Z) (tbl : Table)
      (r : Todo.t) :
  In r tbl -> Todo.id r = i ->
  In (set_row u r) (snd (db_update_set_where_id u i tbl)).
Proof.
  intros Hin Hid. unfold db_update_set_where_id. simpl.
  apply in_map_iff. exists r. split; [|assumption].
  apply eq_id_true in Hid. now rewrite Hid.
Qed.

(** ** [updateTodo] *)

Lemma updateTodo_unfold (now : Z) (input : UpdateTodoInput.t) (tbl : Table) :
  updateTodo now input tbl
  = let upd := db_update_set_where_id (updateData_of now input)
                                      (UpdateTodoInput.id input) tbl in
    (match fst upd with [] => None | r :: _ => Some r end, snd upd).
Proof.
  destruct input as [i [t|] [d|] [c|]]; unfold updateTodo, updateData_of;
    cbn [UpdateTodoInput.title UpdateTodoInput.description
         UpdateTodoInput.completed UpdateTodoInput.id
         UpdateData.set_title UpdateData.set_description
         UpdateData.set_completed UpdateData.title UpdateData.description
         UpdateData.completed UpdateData.updated_at];
    destruct (db_update_set_where_id _ i tbl) as [[|r res] tbl'];
    reflexivity.
Qed.

(** What [updateTodo] returns and stores when GetOne finds [r]. *)
Lemma updateTodo_found (now : Z) (input : UpdateTodoInput.t) (tbl : Table)
      (r : Todo.t) :
  fst (getTodo (id_of (UpdateTodoInput.id input)) tbl) = Some r ->
  let r' := set_row (updateData_of now input) r in
  fst (updateTodo now input tbl) = Some r' /\
  fst (getTodo (id_of (UpdateTodoInput.id input))
               (snd (updateTodo now input tbl))) = Some r'.
Proof.
  intros Hget r'. rewrite updateTodo_unfold. cbv zeta.
  unfold getTodo in *. cbn [fst snd id_of GetTodoInput.id] in *.
  rewrite select_update_same.
  unfold db_update_set_where_id, db_select_where_id in *. cbn [fst].
  destruct (filter (eq_id (UpdateTodoInput.id input)) tbl) as [|r0 rest];
    [discriminate|].
  injection Hget as ->. simpl. split; reflexivity.
Qed.

(** C1, with the timestamp clause made precise.  When GetOne finds the record [r] for the id of an
    update request, [updateTodo] succeeds with a record [r'] that is also
    what GetOne finds afterwards, and [r'] is [r] with exactly the fields
    present in the request applied: an undefined field keeps the stored
    value, a description that is present replaces the stored one, so that
    an explicit null clears it while undefined keeps it.  [id] and
    [created_at] are kept.  [updated_at] is set to the clock reading of the
    call whether or not another field changed, and is strictly later than
    the stored value exactly when that reading is. *)
Theorem updateTodo_applies_present_fields
        (now : Z) (input : UpdateTodoInput.t) (tbl : Table) (r : Todo.t) :
  fst (getTodo (id_of (UpdateTodoInput.id input)) tbl) = Some r ->
  exists r',
    fst (updateTodo now input tbl) = Some r' /\
    fst (getTodo (id_of (UpdateTodoInput.id input))
                 (snd (updateTodo now input tbl))) = Some r' /\
    Todo.id r' = Todo.id r /\
    Todo.created_at r' = Todo.created_at r /\
    Todo.title r' = match UpdateTodoInput.title input with
                    | Some v => v
                    | None => Todo.title r
                    end /\
    Todo.description r' = match UpdateTodoInput.description input with
                          | Some None => None
                          | Some (Some v) => Some v
                          | None => Todo.description r
                          end /\
    Todo.completed r' = match UpdateTodoInput.completed input with
                        | Some v => v
                        | None => Todo.completed r
                        end /\
    Todo.updated_at r' = now /\
    (Todo.updated_at r < Todo.updated_at r' <-> Todo.updated_at r < now).
Proof.
  intros Hget.
  destruct (updateTodo_found now input tbl r Hget) as [Hres Hstored].
  exists (set_row (updateData_of now input) r).
  repeat split; try assumption; try reflexivity.
  - cbn. now destruct (UpdateTodoInput.description input) as [[v|]|].
  - cbn. trivial.
  - cbn. trivial.
Qed.

Lemma updateTodo_applies_present_fields_witness :
  fst (getTodo (id_of (UpdateTodoInput.id completed_only)) [original_todo])
  = Some original_todo /\
  exists r',
    fst (updateTodo 1010 completed_only [original_todo]) = Some r' /\
    fst (getTodo (id_of (UpdateTodoInput.id completed_only))
                 (snd (updateTodo 1010 completed_only [original_todo])))
    = Some r' /\
    Todo.id r' = Todo.id original_todo /\
    Todo.created_at r' = Todo.created_at original_todo /\
    Todo.title r' = match UpdateTodoInput.title completed_only with
                    | Some v => v
                    | None => Todo.title original_todo
                    end /\
    Todo.description r' = match UpdateTodoInput.description completed_only with
                          | Some None => None
                          | Some (Some v) => Some v
                          | None => Todo.description original_todo
                          end /\
    Todo.completed r' = match UpdateTodoInput.completed completed_only with
                        | Some v => v
                        | None => Todo.completed original_todo
                        end /\
    Todo.updated_at r' = 1010 /\
    (Todo.updated_at original_todo < Todo.updated_at r'
     <-> Todo.updated_at original_todo < 1010).
Proof.
  split.
  - reflexivity.
  - exact (updateTodo_applies_present_fields
             1010 completed_only [original_todo] original_todo eq_refl).
Defined.

(** C1, counterexample.  A record last written at clock reading 1000 is
    updated with only [completed: true] while the clock still reads 1000:
    the update succeeds and [updated_at] is 1000 again, not later. *)
Lemma updateTodo_same_millisecond :
  fst (updateTodo 1000 completed_only [original_todo])
  = Some (Todo.mk 1 "Original Todo" (Some "Original description") true
                  1000 1000)
  /\ ~ updated_at_strictly_later 1000 completed_only [original_todo].
Proof.
  split; [reflexivity|].
  intros H.
  specialize (H original_todo _ eq_refl eq_refl).
  cbn in H. lia.
Qed.

(** C5.  When no stored record has the id of the request, [updateTodo]
    returns the not-found value and the table it leaves is the table it
    was given. *)
Theorem updateTodo_not_found
        (now : Z) (input : UpdateTodoInput.t) (tbl : Table) :
  (forall r, In r tbl -> Todo.id r <> UpdateTodoInput.id input) ->
  updateTodo now input tbl = (None, tbl).
Proof.
  intros Hno. apply select_none in Hno.
  rewrite updateTodo_unfold. cbv zeta.
  rewrite (update_table_none _ _ _ Hno).
  unfold db_update_set_where_id, db_select_where_id in *. cbn [fst].
  now rewrite Hno.
Qed.

Lemma updateTodo_not_found_witness :
  (forall r, In r [original_todo] ->
             Todo.id r <> UpdateTodoInput.id
                            (UpdateTodoInput.mk 99999 (Some "Should not work")
                                                None None)) /\
  updateTodo 1010 (UpdateTodoInput.mk 99999 (Some "Should not work") None None)
             [original_todo]
  = (None, [original_todo]).
Proof.
  assert (H : forall r, In r [original_todo] ->
                        Todo.id r <> UpdateTodoInput.id
                          (UpdateTodoInput.mk 99999 (Some "Should not work")
                                              None None)).
  { intros r [<-|[]]. cbn. lia. }
  split.
  - exact H.
  - exact (updateTodo_not_found 1010 _ [original_todo] H).
Defined.

(** C9.  For every stored record, an update request for its id whose title
    is the empty string succeeds: [updateTodo] returns a record, that
    record is stored, its title is the empty string, and so is the title
    of every stored record with that id. *)
Theorem updateTodo_accepts_empty_title
        (now i : Z) (d : option (option string)) (c : option bool)
        (tbl : Table) (r : Todo.t) :
  In r tbl -> Todo.id r = i ->
  exists r',
    fst (updateTodo now (UpdateTodoInput.mk i (Some "") d c) tbl) = Some r' /\
    In r' (snd (updateTodo now (UpdateTodoInput.mk i (Some "") d c) tbl)) /\
    Todo.id r' = i /\
    Todo.title r' = "" /\
    (forall x,
        In x (snd (updateTodo now (UpdateTodoInput.mk i (Some "") d c) tbl)) ->
        Todo.id x = i -> Todo.title x = "").
Proof.
  intros Hin Hid.
  destruct (select_some i tbl r Hin Hid) as [r0 [rest [Hsel [Hin0 Hid0]]]].
  set (input := UpdateTodoInput.mk i (Some "") d c).
  rewrite updateTodo_unfold. cbv zeta. cbn [fst snd].
  exists (set_row (updateData_of now input) r0).
  split; [|split; [|split; [|split]]].
  - unfold db_update_set_where_id, db_select_where_id in *. cbn [fst].
    subst input. cbn [UpdateTodoInput.id]. now rewrite Hsel.
  - now apply update_table_In_patched.
  - exact Hid0.
  - reflexivity.
  - intros x Hx Hxi. apply update_table_In in Hx.
    destruct Hx as [y [_ [[Hne ->]|[_ ->]]]].
    + subst input. cbn [UpdateTodoInput.id] in Hne. contradiction.
    + reflexivity.
Qed.

Lemma updateTodo_accepts_empty_title_witness :
  In original_todo [original_todo] /\
  Todo.id original_todo = 1 /\
  exists r',
    fst (updateTodo 1010 (UpdateTodoInput.mk 1 (Some "") None None)
                    [original_todo]) = Some r' /\
    In r' (snd (updateTodo 1010 (UpdateTodoInput.mk 1 (Some "") None None)
                           [original_todo])) /\
    Todo.id r' = 1 /\
    Todo.title r' = "" /\
    (forall x,
        In x (snd (updateTodo 1010 (UpdateTodoInput.mk 1 (Some "") None None)
                              [original_todo])) ->
        Todo.id x = 1 -> Todo.title x = "").
Proof.
  split; [now left|]. split; [reflexivity|].
  exact (updateTodo_accepts_empty_title
           1010 1 None None [original_todo] original_todo
           (or_introl eq_refl) eq_refl).
Defined.

(** ** [createTodo] *)

(** [createTodo] hands the table back as it received it. *)
Lemma createTodo_table (t1 t2 : Z) (input : CreateTodoInput.t) (tbl : Table) :
  snd (createTodo t1 t2 input tbl) = tbl.
Proof. reflexivity. Qed.

(** The id of the record [createTodo] returns. *)
Lemma createTodo_id (t1 t2 : Z) (input : CreateTodoInput.t) (tbl : Table) :
  Todo.id (fst (createTodo t1 t2 input tbl)) = 0.
Proof. reflexivity. Qed.

(** On a table that holds no record with id 0, GetOne does not find what
    [createTodo] has just returned, whatever the input. *)
Lemma createTodo_not_stored
      (t1 t2 : Z) (input : CreateTodoInput.t) (tbl : Table) :
  (forall r, In r tbl -> Todo.id r <> 0) ->
  fst (getTodo (id_of (Todo.id (fst (createTodo t1 t2 input tbl))))
               (snd (createTodo t1 t2 input tbl)))
  = None.
Proof.
  intros Hno. rewrite createTodo_id, createTodo_table.
  unfold getTodo. cbn [fst id_of GetTodoInput.id].
  now rewrite (select_none 0 tbl Hno).
Qed.

(** C2, evaluated at the failing input.  On the empty table, [createTodo]
    of the tests' basic input returns a record with id 0 and leaves the
    table empty; [getTodo] with that id then finds nothing. *)
Theorem createTodo_then_getTodo_not_found :
  let '(created, tbl) := createTodo 1000 1000 basicInput [] in
  created = Todo.mk 0 "Test Todo" (Some "A todo for testing") false 1000 1000
  /\ tbl = []
  /\ fst (getTodo (id_of (Todo.id created)) tbl) = None
  /\ fst (getTodo (id_of (Todo.id created)) tbl) <> Some created.
Proof.
  cbn. repeat split; try reflexivity. discriminate.
Qed.

(** C3, evaluated at the failing input.  Two successive calls of
    [createTodo], the second on the table the first left, return records
    with the same id, 0. *)
Theorem createTodo_twice_same_id :
  let '(todo1, tbl1) :=
    createTodo 1000 1000
      (CreateTodoInput.mk "First Todo" (Some (Some "First description"))) [] in
  let '(todo2, tbl2) :=
    createTodo 1005 1005
      (CreateTodoInput.mk "Second Todo" (Some (Some "Second description")))
      tbl1 in
  Todo.id todo1 = 0 /\ Todo.id todo2 = 0 /\ Todo.id todo1 = Todo.id todo2
  /\ tbl2 = [].
Proof.
  cbn. repeat split; reflexivity.
Qed.

(** C10.  [createTodo] treats an empty-string description as it treats an
    omitted or null one: for every create input whose description is the
    empty string the record returned has no description (not the empty
    string), which is also what an omitted and a null description give. *)
Theorem createTodo_empty_description_is_null
        (t1 t2 : Z) (title : string) (tbl : Table) :
  let description_for d :=
    Todo.description
      (fst (createTodo t1 t2 (CreateTodoInput.mk title d) tbl)) in
  description_for (Some (Some "")) = None /\
  description_for (Some (Some "")) <> Some "" /\
  description_for (Some (Some "")) = description_for None /\
  description_for (Some (Some "")) = description_for (Some None).
Proof. cbn. repeat split; try reflexivity. discriminate. Qed.

(** C4.  A create request whose title is missing or empty does not pass the
    input schema: the create operation answers with a validation failure,
    returns no Todo, and the table is the one it was given. *)
Theorem create_rejects_empty_title
        (t1 t2 : Z) (raw : CreateRequest.t) (tbl : Table) :
  CreateRequest.title raw = None \/ CreateRequest.title raw = Some "" ->
  createTodoInputSchema raw = None /\
  create t1 t2 raw tbl = (ValidationFailure, tbl) /\
  (forall todo, fst (create t1 t2 raw tbl) <> Created todo).
Proof.
  intros Htitle.
  assert (Hschema : createTodoInputSchema raw = None).
  { unfold createTodoInputSchema. destruct Htitle as [-> | ->]; reflexivity. }
  unfold create. rewrite Hschema.
  repeat split; try reflexivity. intros todo. discriminate.
Qed.

Lemma create_rejects_empty_title_witness :
  (CreateRequest.title (CreateRequest.mk (Some "") None) = None \/
   CreateRequest.title (CreateRequest.mk (Some "") None) = Some "") /\
  createTodoInputSchema (CreateRequest.mk (Some "") None) = None /\
  create 1000 1000 (CreateRequest.mk (Some "") None) [original_todo]
  = (ValidationFailure, [original_todo]) /\
  (forall todo,
      fst (create 1000 1000 (CreateRequest.mk (Some "") None) [original_todo])
      <> Created todo).
Proof.
  split.
  - right. reflexivity.
  - exact (create_rejects_empty_title
             1000 1000 (CreateRequest.mk (Some "") None) [original_todo]
             (or_intror eq_refl)).
Defined.

(** ** [deleteTodo] *)

Lemma select_delete_same (i : Z) (tbl : Table) :
  db_select_where_id i (snd (deleteTodo (DeleteTodoInput.mk i) tbl)) = [].
Proof.
  unfold db_select_where_id, deleteTodo. cbn [snd DeleteTodoInput.id].
  induction tbl as [|x tbl IH]; simpl; [reflexivity|].
  destruct (eq_id i x) eqn:E; simpl; [assumption|].
  now rewrite E.
Qed.

Lemma select_delete_other (i j : Z) (tbl : Table) :
  j <> i ->
  db_select_where_id j (snd (deleteTodo (DeleteTodoInput.mk i) tbl))
  = db_select_where_id j tbl.
Proof.
  intros Hji.
  unfold db_select_where_id, deleteTodo. cbn [snd DeleteTodoInput.id].
  induction tbl as [|x tbl IH]; simpl; [reflexivity|].
  destruct (eq_id i x) eqn:E; simpl.
  - assert (Hj : eq_id j x = false).
    { apply eq_id_false. apply eq_id_true in E. congruence. }
    now rewrite Hj.
  - now rewrite IH.
Qed.

Lemma delete_absent (i : Z) (tbl : Table) :
  (forall r, In r tbl -> Todo.id r <> i) ->
  deleteTodo (DeleteTodoInput.mk i) tbl = (false, tbl).
Proof.
  unfold deleteTodo. cbn [DeleteTodoInput.id].
  induction tbl as [|x tbl IH]; intros Hno; simpl; [reflexivity|].
  assert (Hx : eq_id i x = false) by (apply eq_id_false, Hno; now left).
  rewrite Hx. simpl.
  assert (Hrest : forall r, In r tbl -> Todo.id r <> i)
    by (intros r Hr; apply Hno; now right).
  specialize (IH Hrest). injection IH as IH1 IH2.
  now rewrite IH1, IH2.
Qed.

(** C6.  [deleteTodo] returns true exactly when a record with the id was
    stored and false exactly when none was; afterwards no stored record
    has the id and GetOne does not find it; a record with another id is
    stored afterwards exactly when it was before, and GetOne answers for
    another id as before; when the id was absent the table is unchanged. *)
Theorem deleteTodo_point_deletion (i : Z) (tbl : Table) :
  let '(deleted, tbl') := deleteTodo (DeleteTodoInput.mk i) tbl in
  (deleted = true <-> exists r, In r tbl /\ Todo.id r = i) /\
  (deleted = false <-> forall r, In r tbl -> Todo.id r <> i) /\
  (forall r, In r tbl' -> Todo.id r <> i) /\
  fst (getTodo (id_of i) tbl') = None /\
  (forall r, Todo.id r <> i -> (In r tbl' <-> In r tbl)) /\
  (forall j, j <> i ->
             fst (getTodo (id_of j) tbl') = fst (getTodo (id_of j) tbl)) /\
  (deleted = false -> tbl' = tbl).
Proof.
  destruct (deleteTodo (DeleteTodoInput.mk i) tbl) as [deleted tbl'] eqn:E.
  assert (Hd : deleted = existsb (eq_id i) tbl)
    by (unfold deleteTodo in E; now injection E).
  assert (Ht : tbl' = snd (deleteTodo (DeleteTodoInput.mk i) tbl))
    by now rewrite E.
  assert (Htrue : deleted = true <-> exists r, In r tbl /\ Todo.id r = i).
  { rewrite Hd, existsb_exists. split; intros [r [Hr Hi]]; exists r;
      (split; [assumption | now apply eq_id_true]). }
  assert (Hfalse : deleted = false <-> forall r, In r tbl -> Todo.id r <> i).
  { split.
    - intros Hf r Hr Hi.
      assert (deleted = true) by (apply Htrue; now exists r). congruence.
    - intros Hno. destruct deleted; [|reflexivity].
      destruct (proj1 Htrue eq_refl) as [r [Hr Hi]]. now elim (Hno r Hr). }
  split; [exact Htrue|]. split; [exact Hfalse|].
  split; [|split; [|split; [|split]]].
  - intros r Hr. rewrite Ht in Hr. unfold deleteTodo in Hr.
    cbn [snd DeleteTodoInput.id] in Hr. apply filter_In in Hr.
    destruct Hr as [_ Hr]. apply negb_true_iff in Hr. now apply eq_id_false.
  - unfold getTodo. cbn [fst id_of GetTodoInput.id].
    now rewrite Ht, select_delete_same.
  - intros r Hne. rewrite Ht. unfold deleteTodo.
    cbn [snd DeleteTodoInput.id]. rewrite filter_In.
    apply eq_id_false in Hne. rewrite Hne. simpl. tauto.
  - intros j Hj. unfold getTodo. cbn [fst id_of GetTodoInput.id].
    now rewrite Ht, select_delete_other.
  - intros Hf. rewrite Ht, delete_absent; [reflexivity|]. now apply Hfalse.
Qed.

(** ** [getTodos] *)

Lemma insert_newest_first_perm (r : Todo.t) (l : list Todo.t) :
  Permutation (insert_newest_first r l) (r :: l).
Proof.
  induction l as [|x l IH]; simpl; [apply Permutation_refl|].
  destruct (Todo.created_at x <=? Todo.created_at r).
  - apply Permutation_refl.
  - eapply perm_trans; [apply perm_skip, IH | apply perm_swap].
Qed.

Lemma insert_newest_first_sorted (r : Todo.t) (l : list Todo.t) :
  StronglySorted not_older l ->
  StronglySorted not_older (insert_newest_first r l).
Proof.
  induction 1 as [|x l Hs IH Hx]; simpl.
  - constructor; [constructor | constructor].
  - destruct (Todo.created_at x <=? Todo.created_at r) eqn:E.
    + apply Z.leb_le in E.
      constructor; [constructor; assumption|].
      constructor; [exact E|].
      eapply Forall_impl; [|exact Hx].
      intros y Hy. unfold not_older in *. lia.
    + apply Z.leb_gt in E.
      constructor; [exact IH|].
      eapply Permutation_Forall;
        [apply Permutation_sym, insert_newest_first_perm|].
      constructor; [unfold not_older; lia | exact Hx].
Qed.

(** Among the rows created at [t], insertion puts the new row first. *)
Lemma insert_newest_first_ties (t : Z) (r : Todo.t) (l : list Todo.t) :
  filter (fun x => Todo.created_at x =? t) (insert_newest_first r l)
  = filter (fun x => Todo.created_at x =? t) (r :: l).
Proof.
  induction l as [|x l IH]; [reflexivity|].
  cbn [insert_newest_first].
  destruct (Todo.created_at x <=? Todo.created_at r) eqn:E; [reflexivity|].
  apply Z.leb_gt in E.
  cbn [filter] in *. rewrite IH.
  destruct (Todo.created_at x =? t) eqn:Ex;
    destruct (Todo.created_at r =? t) eqn:Er; try reflexivity.
  apply Z.eqb_eq in Ex, Er. lia.
Qed.

(** C7.  [getTodos] returns the empty sequence on the empty table; on any
    table it returns the stored records, each as often as it is stored,
    ordered newest first by [created_at], the records with equal
    [created_at] in the order the table holds them; and it leaves the
    table as it was. *)
Theorem getTodos_newest_first (tbl : Table) :
  getTodos [] = ([], []) /\
  snd (getTodos tbl) = tbl /\
  Permutation (fst (getTodos tbl)) tbl /\
  List.length (fst (getTodos tbl)) = List.length tbl /\
  StronglySorted not_older (fst (getTodos tbl)) /\
  (forall t,
      filter (fun x => Todo.created_at x =? t) (fst (getTodos tbl))
      = filter (fun x => Todo.created_at x =? t) tbl).
Proof.
  split; [reflexivity|]. split; [reflexivity|].
  assert (Hperm : Permutation (fst (getTodos tbl)) tbl).
  { unfold getTodos. cbn [fst].
    induction tbl as [|x tbl IH]; simpl; [constructor|].
    eapply perm_trans; [apply insert_newest_first_perm | now apply perm_skip]. }
  split; [exact Hperm|].
  split; [now apply Permutation_length|].
  split.
  - unfold getTodos. cbn [fst]. clear Hperm.
    induction tbl as [|x tbl IH]; simpl; [constructor|].
    apply insert_newest_first_sorted. exact IH.
  - intros t. unfold getTodos. cbn [fst]. clear Hperm.
    induction tbl as [|x tbl IH]; [reflexivity|].
    cbn [fold_right]. rewrite insert_newest_first_ties.
    cbn [filter]. now rewrite IH.
Qed.

(** ** The timestamp invariant along runs *)

Lemma monotone_from_In (c : Z) (ts : list Z) (t : Z) :
  monotone_from c ts -> In t ts -> c <= t.
Proof.
  revert c. induction ts as [|x ts IH]; intros c Hm Hin; [contradiction|].
  destruct Hm as [Hcx Hm]. destruct Hin as [<-|Hin]; [assumption|].
  specialize (IH x Hm Hin). lia.
Qed.

Lemma monotone_from_last (c : Z) (ts : list Z) :
  monotone_from c ts -> c <= last_reading c ts.
Proof.
  revert c. induction ts as [|x ts IH]; intros c Hm; [cbn; lia|].
  destruct Hm as [Hcx Hm]. specialize (IH x Hm).
  change (last_reading c (x :: ts)) with (last_reading x ts). lia.
Qed.

Lemma monotone_from_app (c : Z) (l1 l2 : list Z) :
  monotone_from c (l1 ++ l2) ->
  monotone_from c l1 /\ monotone_from (last_reading c l1) l2.
Proof.
  revert c. induction l1 as [|x l1 IH]; intros c Hm; [now split|].
  destruct Hm as [Hcx Hm]. destruct (IH x Hm) as [H1 H2].
  split; [now split | exact H2].
Qed.

(** Every row a call leaves in the table stems from a row that was there,
    with the same id and creation time; its [updated_at] is the old one
    or a clock reading of the call. *)
Lemma step_rows (req : Request) (tbl : Table) (r' : Todo.t) :
  In r' (step tbl req) ->
  exists r,
    In r tbl /\ row_key r' = row_key r /\
    (Todo.updated_at r' = Todo.updated_at r \/
     In (Todo.updated_at r') (readings req)).
Proof.
  destruct req as [t1 t2 input | input | | now input | input];
    cbn [step readings]; intros Hin.
  - exists r'. now repeat split; try left.
  - exists r'. now repeat split; try left.
  - exists r'. now repeat split; try left.
  - rewrite updateTodo_unfold in Hin. cbv zeta in Hin. cbn [snd] in Hin.
    apply update_table_In in Hin.
    destruct Hin as [r [Hr [[_ ->]|[_ ->]]]]; exists r.
    + now repeat split; try left.
    + split; [assumption|]. split; [reflexivity|]. right. now left.
  - unfold deleteTodo in Hin. cbn [snd] in Hin. apply filter_In in Hin.
    exists r'. now repeat split; try left.
Qed.

Lemma step_invariant (c : Z) (req : Request) (tbl : Table) :
  Forall timestamps_ordered tbl ->
  Forall (fun r => Todo.created_at r <= c) tbl ->
  monotone_from c (readings req) ->
  Forall timestamps_ordered (step tbl req) /\
  Forall (fun r => Todo.created_at r <= last_reading c (readings req))
         (step tbl req).
Proof.
  intros Hord Hc Hm. rewrite Forall_forall in Hord, Hc.
  pose proof (monotone_from_last _ _ Hm) as Hlast.
  split; apply Forall_forall; intros r' Hr';
    destruct (step_rows _ _ _ Hr') as [r [Hr [Hkey Hupd]]];
    injection Hkey as Hid Hcr; specialize (Hord r Hr); specialize (Hc r Hr);
    unfold timestamps_ordered in *.
  - destruct Hupd as [Hupd|Hupd]; [lia|].
    pose proof (monotone_from_In _ _ _ Hm Hupd). lia.
  - lia.
Qed.

(** For each id, a call either removes the rows with that id or keeps
    their ids and creation times. *)
Lemma step_select_keys (req : Request) (tbl : Table) (i : Z) :
  db_select_where_id i (step tbl req) = [] \/
  map row_key (db_select_where_id i (step tbl req))
  = map row_key (db_select_where_id i tbl).
Proof.
  destruct req as [t1 t2 input | input | | now input | [j]];
    cbn [step]; try (right; reflexivity).
  - right. rewrite updateTodo_unfold. cbv zeta. cbn [snd].
    destruct (Z.eq_dec i (UpdateTodoInput.id input)) as [->|Hne].
    + rewrite select_update_same. unfold db_update_set_where_id. cbn [fst].
      rewrite map_map. reflexivity.
    + now rewrite select_update_other.
  - destruct (Z.eq_dec i j) as [->|Hne].
    + left. apply select_delete_same.
    + right. now rewrite select_delete_other.
Qed.

Lemma run_select_keys (reqs : list Request) (tbl : Table) (i : Z) :
  db_select_where_id i (run reqs tbl) = [] \/
  map row_key (db_select_where_id i (run reqs tbl))
  = map row_key (db_select_where_id i tbl).
Proof.
  revert tbl. induction reqs as [|req reqs IH]; intros tbl.
  - right. reflexivity.
  - change (run (req :: reqs) tbl) with (run reqs (step tbl req)).
    destruct (IH (step tbl req)) as [Hnil|Hkeys]; [now left|].
    destruct (step_select_keys req tbl i) as [Hnil|Hstep].
    + left. rewrite Hnil in Hkeys.
      destruct (db_select_where_id i (run reqs (step tbl req)));
        [reflexivity | discriminate].
    + right. now rewrite Hkeys.
Qed.

Lemma run_invariant (reqs : list Request) (c : Z) (tbl : Table) :
  Forall timestamps_ordered tbl ->
  Forall (fun r => Todo.created_at r <= c) tbl ->
  monotone_from c (flat_map readings reqs) ->
  Forall timestamps_ordered (run reqs tbl).
Proof.
  revert c tbl. induction reqs as [|req reqs IH]; intros c tbl Hord Hc Hm.
  - exact Hord.
  - change (run (req :: reqs) tbl) with (run reqs (step tbl req)).
    cbn [flat_map] in Hm. apply monotone_from_app in Hm.
    destruct Hm as [Hm1 Hm2].
    destruct (step_invariant c req tbl Hord Hc Hm1) as [Hord' Hc'].
    exact (IH _ _ Hord' Hc' Hm2).
Qed.

Lemma run_rows (reqs : list Request) (tbl : Table) (r' : Todo.t) :
  In r' (run reqs tbl) ->
  exists r, In r tbl /\ row_key r' = row_key r.
Proof.
  revert tbl. induction reqs as [|req reqs IH]; intros tbl Hin.
  - now exists r'.
  - change (run (req :: reqs) tbl) with (run reqs (step tbl req)) in Hin.
    destruct (IH _ Hin) as [r1 [Hr1 Hk1]].
    destruct (step_rows _ _ _ Hr1) as [r [Hr [Hk _]]].
    exists r. split; [assumption | congruence].
Qed.

Lemma run_create_readings (reqs : list Request) (c t1 t2 : Z)
      (input : CreateTodoInput.t) :
  monotone_from c (flat_map readings reqs) ->
  In (ReqCreate t1 t2 input) reqs -> t1 <= t2.
Proof.
  revert c. induction reqs as [|req reqs IH]; intros c Hm Hin; [contradiction|].
  cbn [flat_map] in Hm. apply monotone_from_app in Hm. destruct Hm as [Hm1 Hm2].
  destruct Hin as [->|Hin].
  - cbn in Hm1. tauto.
  - exact (IH _ Hm2 Hin).
Qed.

(** C8, with the clock condition stated.  For any table and any sequence
    of calls of the five operations, every record stored after the
    sequence stems from a record of the initial table with the same [id]
    and [created_at], and whenever GetOne finds a record for an id before
    and after the sequence the two have the same [id] and [created_at].
    If moreover the records of the initial table all have
    [created_at <= updated_at] and were created no later than the clock
    reading [c], and the clock readings of the calls do not run backwards
    from [c], then every record a create call of the sequence returns has
    [created_at <= updated_at], and so has every record stored after the
    sequence. *)
Theorem timestamps_ordered_invariant
        (c : Z) (reqs : list Request) (tbl : Table) :
  ((forall r',
       In r' (run reqs tbl) ->
       exists r,
         In r tbl /\ Todo.id r' = Todo.id r /\
         Todo.created_at r' = Todo.created_at r) /\
   (forall i r r',
       fst (getTodo (id_of i) tbl) = Some r ->
       fst (getTodo (id_of i) (run reqs tbl)) = Some r' ->
       Todo.id r' = Todo.id r /\ Todo.created_at r' = Todo.created_at r)) /\
  (Forall timestamps_ordered tbl ->
   Forall (fun r => Todo.created_at r <= c) tbl ->
   monotone_from c (flat_map readings reqs) ->
   (forall t1 t2 input tbl0,
       In (ReqCreate t1 t2 input) reqs ->
       timestamps_ordered (fst (createTodo t1 t2 input tbl0))) /\
   Forall timestamps_ordered (run reqs tbl)).
Proof.
  split; [split|].
  - intros r' Hr'. destruct (run_rows _ _ _ Hr') as [r [Hr Hk]].
    injection Hk as Hid Hcr. now exists r.
  - intros i r r'. unfold getTodo. cbn [fst id_of GetTodoInput.id].
    intros Hbefore Hafter.
    destruct (run_select_keys reqs tbl i) as [Hnil|Hkeys].
    + rewrite Hnil in Hafter. discriminate.
    + destruct (db_select_where_id i tbl) as [|x l]; [discriminate|].
      destruct (db_select_where_id i (run reqs tbl)) as [|x' l'];
        [discriminate|].
      injection Hbefore as ->. injection Hafter as ->.
      cbn [map] in Hkeys. injection Hkeys as Hid Hcr _. now split.
  - intros Hord Hc Hm. split.
    + intros t1 t2 input tbl0 Hin. unfold timestamps_ordered. cbn.
      exact (run_create_readings reqs c t1 t2 input Hm Hin).
    + exact (run_invariant reqs c tbl Hord Hc Hm).
Qed.

Lemma timestamps_ordered_invariant_witness :
  Forall timestamps_ordered [original_todo] /\
  Forall (fun r => Todo.created_at r <= 1000) [original_todo] /\
  monotone_from 1000 (flat_map readings sample_run) /\
  (forall r',
      In r' (run sample_run [original_todo]) ->
      exists r,
        In r [original_todo] /\ Todo.id r' = Todo.id r /\
        Todo.created_at r' = Todo.created_at r) /\
  (forall i r r',
      fst (getTodo (id_of i) [original_todo]) = Some r ->
      fst (getTodo (id_of i) (run sample_run [original_todo])) = Some r' ->
      Todo.id r' = Todo.id r /\ Todo.created_at r' = Todo.created_at r) /\
  (forall t1 t2 input tbl0,
      In (ReqCreate t1 t2 input) sample_run ->
      timestamps_ordered (fst (createTodo t1 t2 input tbl0))) /\
  Forall timestamps_ordered (run sample_run [original_todo]).
Proof.
  assert (H1 : Forall timestamps_ordered [original_todo]).
  { repeat constructor. unfold timestamps_ordered. cbn. lia. }
  assert (H2 : Forall (fun r => Todo.created_at r <= 1000) [original_todo]).
  { repeat constructor. cbn. lia. }
  assert (H3 : monotone_from 1000 (flat_map readings sample_run)).
  { cbn. lia. }
  split; [exact H1|]. split; [exact H2|]. split; [exact H3|].
  split;
    [exact (proj1 (proj1 (timestamps_ordered_invariant
                            1000 sample_run [original_todo])))|].
  split;
    [exact (proj2 (proj1 (timestamps_ordered_invariant
                            1000 sample_run [original_todo])))|].
  exact (proj2 (timestamps_ordered_invariant 1000 sample_run [original_todo])
               H1 H2 H3).
Defined.

(** C8, counterexample.  A record created and last written at clock
    reading 1000 is updated by a call whose clock reads 999: the update
    goes through and leaves the record with [created_at] 1000 and
    [updated_at] 999, so the ordering that held before the call does not
    hold after it. *)
Lemma update_behind_creation_breaks_order :
  Forall timestamps_ordered [original_todo] /\
  run [ReqUpdate 999 completed_only] [original_todo]
  = [Todo.mk 1 "Original Todo" (Some "Original description") true 1000 999] /\
  ~ Forall timestamps_ordered
      (run [ReqUpdate 999 completed_only] [original_todo]).
Proof.
  split; [|split].
  - repeat constructor. unfold timestamps_ordered. cbn. lia.
  - reflexivity.
  - intros H. inversion H as [|x l Hx Hl]; subst.
    unfold timestamps_ordered in Hx. cbn in Hx. lia.
Qed.

(** * Further properties of the handlers *)

(** ** [getTodo] *)

(** The first row a filter keeps, and the rows in front of it. *)
Lemma filter_head_split {A : Type} (p : A -> bool) (l : list A) (x : A)
      (rest : list A) :
  filter p l = x :: rest ->
  exists l1 l2,
    l = (l1 ++ x :: l2)%list /\ p x = true /\ (forall y, In y l1 -> p y = false).
Proof.
  induction l as [|a l IH]; simpl; [discriminate|].
  destruct (p a) eqn:E; intros H.
  - injection H as -> _. exists [], l. repeat split; [assumption|].
    intros y [].
  - destruct (IH H) as [l1 [l2 [-> [Hx Hl1]]]].
    exists (a :: l1), l2. repeat split; [assumption|].
    intros y [<-|Hy]; [assumption | now apply Hl1].
Qed.

(** X1.  [getTodo] answers null exactly when no stored record has the id;
    otherwise it returns the first stored record with that id, in table
    order. *)
Theorem getTodo_first_match (i : Z) (tbl : Table) :
  (fst (getTodo (id_of i) tbl) = None
   <-> forall r, In r tbl -> Todo.id r <> i) /\
  (forall r,
      fst (getTodo (id_of i) tbl) = Some r ->
      Todo.id r = i /\
      exists l1 l2,
        tbl = (l1 ++ r :: l2)%list /\ forall x, In x l1 -> Todo.id x <> i).
Proof.
  unfold getTodo. cbn [fst id_of GetTodoInput.id]. split.
  - split.
    + intros Hnone r Hr Hid.
      destruct (select_some i tbl r Hr Hid) as [r0 [rest [Hsel _]]].
      rewrite Hsel in Hnone. discriminate.
    + intros Hno. now rewrite (select_none i tbl Hno).
  - intros r Hsome. unfold db_select_where_id in Hsome.
    destruct (filter (eq_id i) tbl) as [|r0 rest] eqn:E; [discriminate|].
    injection Hsome as ->.
    destruct (filter_head_split _ _ _ _ E) as [l1 [l2 [Htbl [Hr Hl1]]]].
    split; [now apply eq_id_true|].
    exists l1, l2. split; [assumption|].
    intros x Hx. apply eq_id_false. now apply Hl1.
Qed.

(** ** [updateTodo] *)

Lemma updateTodo_fst (now : Z) (input : UpdateTodoInput.t) (tbl : Table) :
  fst (updateTodo now input tbl)
  = match db_select_where_id (UpdateTodoInput.id input) tbl with
    | [] => None
    | r :: _ => Some (set_row (updateData_of now input) r)
    end.
Proof.
  rewrite updateTodo_unfold. cbv zeta. cbn [fst].
  unfold db_update_set_where_id, db_select_where_id. cbn [fst].
  now destruct (filter (eq_id (UpdateTodoInput.id input)) tbl).
Qed.

Lemma updateTodo_snd (now : Z) (input : UpdateTodoInput.t) (tbl : Table) :
  snd (updateTodo now input tbl)
  = map (fun r => if eq_id (UpdateTodoInput.id input) r
                  then set_row (updateData_of now input) r
                  else r) tbl.
Proof. rewrite updateTodo_unfold. reflexivity. Qed.

(** X2.  [updateTodo] answers null exactly when no stored record has the
    id of the request; a record it returns has that id, carries the clock
    reading of the call as [updated_at], and is stored. *)
Theorem updateTodo_null_iff_absent
        (now : Z) (input : UpdateTodoInput.t) (tbl : Table) :
  (fst (updateTodo now input tbl) = None
   <-> forall r, In r tbl -> Todo.id r <> UpdateTodoInput.id input) /\
  (forall r',
      fst (updateTodo now input tbl) = Some r' ->
      Todo.id r' = UpdateTodoInput.id input /\
      Todo.updated_at r' = now /\
      In r' (snd (updateTodo now input tbl))).
Proof.
  rewrite updateTodo_fst, updateTodo_snd. split.
  - split.
    + intros Hnone r Hr Hid.
      destruct (select_some _ tbl r Hr Hid) as [r0 [rest [Hsel _]]].
      rewrite Hsel in Hnone. discriminate.
    + intros Hno. now rewrite (select_none _ tbl Hno).
  - intros r' Hsome.
    destruct (db_select_where_id (UpdateTodoInput.id input) tbl)
      as [|r0 rest] eqn:E; [discriminate|].
    injection Hsome as <-.
    assert (H0 : In r0 (db_select_where_id (UpdateTodoInput.id input) tbl))
      by (rewrite E; now left).
    apply filter_In in H0. destruct H0 as [Hin Hid].
    split; [now apply eq_id_true|]. split; [reflexivity|].
    apply in_map_iff. exists r0. split; [now rewrite Hid | assumption].
Qed.

(** X3.  [updateTodo] neither adds, removes nor reorders rows: the table
    it leaves has the same ids and creation times, row by row, hence the
    same length, and ids that were unique stay unique. *)
Theorem updateTodo_keeps_rows
        (now : Z) (input : UpdateTodoInput.t) (tbl : Table) :
  map row_key (snd (updateTodo now input tbl)) = map row_key tbl /\
  map Todo.id (snd (updateTodo now input tbl)) = map Todo.id tbl /\
  List.length (snd (updateTodo now input tbl)) = List.length tbl /\
  (NoDup (map Todo.id tbl) ->
   NoDup (map Todo.id (snd (updateTodo now input tbl)))).
Proof.
  rewrite updateTodo_snd.
  assert (Hkey : forall (A : Type) (f : Todo.t -> A),
             (forall u r, f (set_row u r) = f r) ->
             map f (map (fun r => if eq_id (UpdateTodoInput.id input) r
                                  then set_row (updateData_of now input) r
                                  else r) tbl)
             = map f tbl).
  { intros A f Hf. rewrite map_map. apply map_ext. intros r.
    destruct (eq_id _ r); [apply Hf | reflexivity]. }
  split; [apply Hkey; reflexivity|].
  split; [apply Hkey; reflexivity|].
  split; [apply length_map|].
  intros Hnd. rewrite Hkey; [assumption | reflexivity].
Qed.

(** X4.  [updateTodo] touches no record with another id: for every id other
    than the one of the request, GetOne answers as before, and a record
    with such an id is stored afterwards exactly when it was before. *)
Theorem updateTodo_other_ids_untouched
        (now j : Z) (input : UpdateTodoInput.t) (tbl : Table) :
  j <> UpdateTodoInput.id input ->
  getTodo (id_of j) (snd (updateTodo now input tbl))
  = (fst (getTodo (id_of j) tbl), snd (updateTodo now input tbl)) /\
  (forall r,
      Todo.id r = j -> (In r (snd (updateTodo now input tbl)) <-> In r tbl)).
Proof.
  intros Hj. split.
  - unfold getTodo. cbn [fst id_of GetTodoInput.id].
    rewrite updateTodo_unfold. cbv zeta. cbn [snd].
    now rewrite select_update_other.
  - intros r Hr. rewrite updateTodo_snd. split.
    + intros Hin. apply in_map_iff in Hin. destruct Hin as [x [Hx Hin]].
      destruct (eq_id (UpdateTodoInput.id input) x) eqn:E.
      * apply eq_id_true in E. subst r. cbn in Hr. congruence.
      * now subst x.
    + intros Hin. apply in_map_iff. exists r. split; [|assumption].
      assert (E : eq_id (UpdateTodoInput.id input) r = false)
        by (apply eq_id_false; congruence).
      now rewrite E.
Qed.

Lemma updateTodo_other_ids_untouched_witness :
  3 <> UpdateTodoInput.id completed_only /\
  getTodo (id_of 3) (snd (updateTodo 1030 completed_only three_todos))
  = (fst (getTodo (id_of 3) three_todos),
     snd (updateTodo 1030 completed_only three_todos)) /\
  (forall r,
      Todo.id r = 3 ->
      (In r (snd (updateTodo 1030 completed_only three_todos))
       <-> In r three_todos)).
Proof.
  assert (H : 3 <> UpdateTodoInput.id completed_only) by (cbn; lia).
  split; [exact H|].
  exact (updateTodo_other_ids_untouched 1030 3 completed_only three_todos H).
Defined.

(** Two patches in a row are the patch of the merged request. *)
Lemma set_row_merge (n1 n2 : Z) (in1 in2 : UpdateTodoInput.t) (r : Todo.t) :
  set_row (updateData_of n2 in2) (set_row (updateData_of n1 in1) r)
  = set_row (updateData_of n2 (merge_inputs in1 in2)) r.
Proof.
  destruct in1 as [i1 [t1|] [d1|] [c1|]], in2 as [i2 [t2|] [d2|] [c2|]];
    reflexivity.
Qed.

Lemma filter_map_commute {A : Type} (p : A -> bool) (f : A -> A)
      (l : list A) :
  (forall x, p (f x) = p x) ->
  filter p (map f l) = map f (filter p l).
Proof.
  intros Hp. induction l as [|a l IH]; simpl; [reflexivity|].
  rewrite Hp. destruct (p a); simpl; now rewrite IH.
Qed.

(** X5.  Last write wins, field by field: two updates of the same id leave
    the table, and return the record, that the single update would whose
    fields are those of the second request where it has them and those of
    the first elsewhere, made at the clock reading of the second. *)
Theorem updateTodo_last_write_wins
        (n1 n2 : Z) (in1 in2 : UpdateTodoInput.t) (tbl : Table) :
  UpdateTodoInput.id in1 = UpdateTodoInput.id in2 ->
  updateTodo n2 in2 (snd (updateTodo n1 in1 tbl))
  = updateTodo n2 (merge_inputs in1 in2) tbl.
Proof.
  intros Hid.
  assert (Hsnd : snd (updateTodo n2 in2 (snd (updateTodo n1 in1 tbl)))
                 = snd (updateTodo n2 (merge_inputs in1 in2) tbl)).
  { rewrite !updateTodo_snd, map_map. apply map_ext. intros r.
    cbn [merge_inputs UpdateTodoInput.id]. rewrite Hid.
    destruct (eq_id (UpdateTodoInput.id in2) r) eqn:E.
    - rewrite eq_id_set_row, E. apply set_row_merge.
    - now rewrite E. }
  assert (Hfst : fst (updateTodo n2 in2 (snd (updateTodo n1 in1 tbl)))
                 = fst (updateTodo n2 (merge_inputs in1 in2) tbl)).
  { rewrite !updateTodo_fst, updateTodo_snd.
    cbn [merge_inputs UpdateTodoInput.id]. rewrite Hid.
    unfold db_select_where_id. rewrite filter_map_commute.
    - destruct (filter (eq_id (UpdateTodoInput.id in2)) tbl) as [|r0 rest] eqn:E;
        [reflexivity|].
      assert (H0 : In r0 (filter (eq_id (UpdateTodoInput.id in2)) tbl))
        by (rewrite E; now left).
      apply filter_In in H0. destruct H0 as [_ H0].
      cbn [map]. rewrite H0. f_equal. apply set_row_merge.
    - intros x. destruct (eq_id (UpdateTodoInput.id in2) x) eqn:E;
        [now rewrite eq_id_set_row | assumption]. }
  destruct (updateTodo n2 in2 (snd (updateTodo n1 in1 tbl))) as [a b].
  destruct (updateTodo n2 (merge_inputs in1 in2) tbl) as [a' b'].
  cbn [fst snd] in *. now subst.
Qed.

Lemma updateTodo_last_write_wins_witness :
  UpdateTodoInput.id (UpdateTodoInput.mk 2 (Some "Renamed") None (Some false))
  = UpdateTodoInput.id (UpdateTodoInput.mk 2 None (Some None) (Some true)) /\
  updateTodo 1040 (UpdateTodoInput.mk 2 None (Some None) (Some true))
    (snd (updateTodo 1030
            (UpdateTodoInput.mk 2 (Some "Renamed") None (Some false))
            three_todos))
  = updateTodo 1040
      (merge_inputs (UpdateTodoInput.mk 2 (Some "Renamed") None (Some false))
                    (UpdateTodoInput.mk 2 None (Some None) (Some true)))
      three_todos.
Proof.
  split; [reflexivity|].
  exact (updateTodo_last_write_wins
           1030 1040
           (UpdateTodoInput.mk 2 (Some "Renamed") None (Some false))
           (UpdateTodoInput.mk 2 None (Some None) (Some true))
           three_todos eq_refl).
Defined.

(** X6.  Updates of different ids commute: made in either order, they leave
    the same table. *)
Theorem updateTodo_commute
        (n1 n2 : Z) (in1 in2 : UpdateTodoInput.t) (tbl : Table) :
  UpdateTodoInput.id in1 <> UpdateTodoInput.id in2 ->
  snd (updateTodo n2 in2 (snd (updateTodo n1 in1 tbl)))
  = snd (updateTodo n1 in1 (snd (updateTodo n2 in2 tbl))).
Proof.
  intros Hne. rewrite !updateTodo_snd, !map_map. apply map_ext. intros r.
  destruct (eq_id (UpdateTodoInput.id in1) r) eqn:E1;
    destruct (eq_id (UpdateTodoInput.id in2) r) eqn:E2;
    rewrite ?eq_id_set_row, ?E1, ?E2; try reflexivity.
  apply eq_id_true in E1, E2. congruence.
Qed.

Lemma updateTodo_commute_witness :
  UpdateTodoInput.id completed_only
  <> UpdateTodoInput.id (UpdateTodoInput.mk 3 (Some "Third, renamed")
                                            None None) /\
  snd (updateTodo 1040 (UpdateTodoInput.mk 3 (Some "Third, renamed") None None)
                  (snd (updateTodo 1030 completed_only three_todos)))
  = snd (updateTodo 1030 completed_only
           (snd (updateTodo 1040
                   (UpdateTodoInput.mk 3 (Some "Third, renamed") None None)
                   three_todos))).
Proof.
  assert (H : UpdateTodoInput.id completed_only
              <> UpdateTodoInput.id
                   (UpdateTodoInput.mk 3 (Some "Third, renamed") None None))
    by (cbn; lia).
  split; [exact H|].
  exact (updateTodo_commute 1030 1040 completed_only _ three_todos H).
Defined.

(** X7.  Repeating an update request at the same clock reading changes
    nothing further: the second call returns what the first returned and
    leaves the table the first left. *)
Theorem updateTodo_idempotent
        (now : Z) (input : UpdateTodoInput.t) (tbl : Table) :
  updateTodo now input (snd (updateTodo now input tbl))
  = updateTodo now input tbl.
Proof.
  assert (Hrow : forall r,
             set_row (updateData_of now input)
                     (set_row (updateData_of now input) r)
             = set_row (updateData_of now input) r).
  { intros r. destruct input as [i [t|] [d|] [c|]]; reflexivity. }
  assert (Hsnd : snd (updateTodo now input (snd (updateTodo now input tbl)))
                 = snd (updateTodo now input tbl)).
  { rewrite !updateTodo_snd, map_map. apply map_ext. intros r.
    destruct (eq_id (UpdateTodoInput.id input) r) eqn:E.
    - rewrite eq_id_set_row, E. apply Hrow.
    - now rewrite E. }
  assert (Hfst : fst (updateTodo now input (snd (updateTodo now input tbl)))
                 = fst (updateTodo now input tbl)).
  { rewrite updateTodo_fst. rewrite updateTodo_unfold at 1. cbv zeta.
    cbn [snd]. rewrite select_update_same, updateTodo_fst.
    unfold db_update_set_where_id, db_select_where_id. cbn [fst].
    destruct (filter (eq_id (UpdateTodoInput.id input)) tbl) as [|r0 rest];
      [reflexivity|].
    cbn [map]. now rewrite Hrow. }
  destruct (updateTodo now input (snd (updateTodo now input tbl))) as [a b].
  destruct (updateTodo now input tbl) as [a' b'].
  cbn [fst snd] in *. now subst.
Qed.

Lemma NoDup_map_eq {A B : Type} (f : A -> B) (l : list A) (x y : A) :
  NoDup (map f l) -> In x l -> In y l -> f x = f y -> x = y.
Proof.
  induction l as [|a l IH]; simpl; intros Hnd Hx Hy Hf; [contradiction|].
  inversion Hnd as [|b l' Hnotin Hnd']; subst.
  destruct Hx as [->|Hx], Hy as [->|Hy].
  - reflexivity.
  - exfalso. apply Hnotin. rewrite Hf. now apply in_map.
  - exfalso. apply Hnotin. rewrite <- Hf. now apply in_map.
  - now apply IH.
Qed.

(** With unique ids, the update replaces the rows with the id by the
    record returned. *)
Lemma update_table_replace
      (now : Z) (input : UpdateTodoInput.t) (tbl : Table) (r' : Todo.t) :
  NoDup (map Todo.id tbl) ->
  fst (updateTodo now input tbl) = Some r' ->
  snd (updateTodo now input tbl)
  = App.replace_by_id (UpdateTodoInput.id input) r' tbl.
Proof.
  intros Hnd Hres. rewrite updateTodo_fst in Hres. rewrite updateTodo_snd.
  destruct (db_select_where_id (UpdateTodoInput.id input) tbl)
    as [|r0 rest] eqn:E; [discriminate|].
  injection Hres as <-.
  assert (H0 : In r0 (db_select_where_id (UpdateTodoInput.id input) tbl))
    by (rewrite E; now left).
  apply filter_In in H0. destruct H0 as [Hin0 Hid0]. apply eq_id_true in Hid0.
  unfold App.replace_by_id. apply map_ext_in. intros x Hx.
  unfold eq_id. destruct (Todo.id x =? UpdateTodoInput.id input) eqn:Ex;
    [|reflexivity].
  apply Z.eqb_eq in Ex.
  assert (x = r0) by (apply (NoDup_map_eq Todo.id tbl); congruence).
  now subst.
Qed.

Lemma updateTodo_null_table
      (now : Z) (input : UpdateTodoInput.t) (tbl : Table) :
  fst (updateTodo now input tbl) = None ->
  snd (updateTodo now input tbl) = tbl.
Proof.
  rewrite updateTodo_fst. intros Hnone.
  rewrite updateTodo_unfold. cbv zeta. cbn [snd].
  apply update_table_none.
  now destruct (db_select_where_id (UpdateTodoInput.id input) tbl).
Qed.

(** X8.  When ids are unique in the table, a successful [updateTodo]
    changes the table at one place only: the table afterwards is the
    table before with the returned record in the place of the record with
    the id of the request. *)
Theorem updateTodo_replaces_one_row
        (now : Z) (input : UpdateTodoInput.t) (tbl : Table) (r' : Todo.t) :
  NoDup (map Todo.id tbl) ->
  fst (updateTodo now input tbl) = Some r' ->
  exists l1 r l2,
    tbl = (l1 ++ r :: l2)%list /\
    Todo.id r = UpdateTodoInput.id input /\
    r' = set_row (updateData_of now input) r /\
    snd (updateTodo now input tbl) = (l1 ++ r' :: l2)%list.
Proof.
  intros Hnd Hres.
  pose proof (update_table_replace now input tbl r' Hnd Hres) as Htbl.
  rewrite updateTodo_fst in Hres.
  destruct (db_select_where_id (UpdateTodoInput.id input) tbl)
    as [|r0 rest] eqn:E; [discriminate|].
  injection Hres as Hr'.
  destruct (filter_head_split _ _ _ _ E) as [l1 [l2 [Hsplit [Hid0 Hl1]]]].
  exists l1, r0, l2. apply eq_id_true in Hid0.
  split; [assumption|]. split; [assumption|]. split; [now symmetry|].
  rewrite Htbl, Hsplit. unfold App.replace_by_id.
  rewrite map_app. cbn [map].
  assert (E0 : (Todo.id r0 =? UpdateTodoInput.id input) = true)
    by now apply Z.eqb_eq.
  rewrite E0. f_equal; [|f_equal].
  - rewrite <- (map_id l1) at 2. apply map_ext_in. intros x Hx.
    specialize (Hl1 x Hx). unfold eq_id in Hl1. now rewrite Hl1.
  - rewrite <- (map_id l2) at 2. apply map_ext_in. intros x Hx.
    destruct (Todo.id x =? UpdateTodoInput.id input) eqn:Ex; [|reflexivity].
    exfalso. apply Z.eqb_eq in Ex.
    rewrite Hsplit, map_app in Hnd. cbn [map] in Hnd.
    apply NoDup_remove_2 in Hnd. apply Hnd. apply in_or_app. right.
    rewrite Hid0, <- Ex. now apply in_map.
Qed.

Lemma updateTodo_replaces_one_row_witness :
  NoDup (map Todo.id three_todos) /\
  fst (updateTodo 1030 (UpdateTodoInput.mk 2 None (Some None) None)
                  three_todos)
  = Some (Todo.mk 2 "Second Todo" None true 1010 1030) /\
  exists l1 r l2,
    three_todos = (l1 ++ r :: l2)%list /\
    Todo.id r = UpdateTodoInput.id (UpdateTodoInput.mk 2 None (Some None) None)
    /\
    Todo.mk 2 "Second Todo" None true 1010 1030
    = set_row (updateData_of 1030 (UpdateTodoInput.mk 2 None (Some None) None))
              r /\
    snd (updateTodo 1030 (UpdateTodoInput.mk 2 None (Some None) None)
                    three_todos)
    = (l1 ++ Todo.mk 2 "Second Todo" None true 1010 1030 :: l2)%list.
Proof.
  assert (H : NoDup (map Todo.id three_todos)).
  { cbn. repeat constructor; cbn; intuition lia. }
  split; [exact H|]. split; [reflexivity|].
  exact (updateTodo_replaces_one_row
           1030 (UpdateTodoInput.mk 2 None (Some None) None) three_todos
           _ H eq_refl).
Defined.

(** ** [createTodo] *)

(** X9.  The record [createTodo] returns carries the description [s]
    exactly when the input description is the string [s] and [s] is not
    empty; its description is never the empty string, and the title is the
    input title as given, the empty title included. *)
Theorem createTodo_description_iff
        (t1 t2 : Z) (input : CreateTodoInput.t) (tbl : Table) (s : string) :
  (Todo.description (fst (createTodo t1 t2 input tbl)) = Some s
   <-> CreateTodoInput.description input = Some (Some s) /\ s <> "") /\
  Todo.description (fst (createTodo t1 t2 input tbl)) <> Some "" /\
  Todo.title (fst (createTodo t1 t2 input tbl)) = CreateTodoInput.title input.
Proof.
  destruct input as [title [[d|]|]]; cbn.
  - destruct (String.eqb_spec d "") as [->|Hd].
    + split; [split|split; [discriminate | reflexivity]].
      * discriminate.
      * intros [H1 H2]. injection H1 as <-. contradiction.
    + split; [split|split; [congruence | reflexivity]].
      * intros H. injection H as <-. now split.
      * intros [H1 _]. congruence.
  - split; [split|split; [discriminate | reflexivity]].
    + discriminate.
    + intros [H _]. discriminate.
  - split; [split|split; [discriminate | reflexivity]].
    + discriminate.
    + intros [H _]. discriminate.
Qed.

(** * Properties of the client component *)

(** ** [trim] and the title guards *)

Lemma blank_trimStart (s : string) : blank (trimStart s) = blank s.
Proof.
  induction s as [|c s IH]; [reflexivity|].
  cbn [trimStart blank]. destruct (is_whitespace c) eqn:E.
  - exact IH.
  - cbn [blank]. now rewrite E.
Qed.

Lemma trimEnd_empty (s : string) : falsy (trimEnd s) = blank s.
Proof.
  induction s as [|c s IH]; [reflexivity|].
  cbn [trimEnd blank]. destruct (trimEnd s) as [|c' rest].
  - cbn in IH. rewrite <- IH, andb_true_r.
    now destruct (is_whitespace c).
  - cbn in IH. rewrite <- IH, andb_false_r. reflexivity.
Qed.

(** [!s.trim()] holds exactly for the strings made of white space only. *)
Lemma falsy_trim (s : string) : falsy (trim s) = blank s.
Proof. unfold trim. now rewrite trimEnd_empty, blank_trimStart. Qed.

Lemma handleCreateTodo_blank_title_aux
      {S : Type} (mutate : CreateTodoInput.t -> S -> App.Remote Todo.t * S)
      (st : App.State) (srv : S) :
  blank (CreateTodoInput.title (App.createFormData st)) = true ->
  App.handleCreateTodo mutate st srv = (st, srv).
Proof.
  intros Hblank. unfold App.handleCreateTodo.
  now rewrite falsy_trim, Hblank.
Qed.

(** X10.  When the title of the create form is empty or made of white
    space only, [handleCreateTodo] returns at once: the remote call is not
    made, whatever it would do, and the component state is unchanged. *)
Theorem handleCreateTodo_blank_title
        {S : Type} (mutate : CreateTodoInput.t -> S -> App.Remote Todo.t * S)
        (st : App.State) (srv : S) :
  blank (CreateTodoInput.title (App.createFormData st)) = true ->
  App.handleCreateTodo mutate st srv = (st, srv).
Proof.
  intros Hblank. unfold App.handleCreateTodo.
  rewrite falsy_trim, Hblank. reflexivity.
Qed.

Lemma handleCreateTodo_blank_title_witness :
  blank (CreateTodoInput.title (App.createFormData blank_title_state)) = true
  /\
  App.handleCreateTodo (remote_createTodo 1000 1000) blank_title_state
                       three_todos
  = (blank_title_state, three_todos).
Proof.
  split; [reflexivity|].
  exact (handleCreateTodo_blank_title (remote_createTodo 1000 1000)
                                      blank_title_state three_todos eq_refl).
Defined.

(** X11.  [handleEditTodo] returns at once, without the remote call and
    with the component state unchanged, when no todo is being edited, or
    the title of the edit form is undefined, empty or made of white space
    only. *)
Theorem handleEditTodo_guard
        {S : Type}
        (mutate : UpdateTodoInput.t -> S -> App.Remote (option Todo.t) * S)
        (st : App.State) (srv : S) :
  App.editingTodo st = None \/
  match App.EditFormData.title (App.editFormData st) with
  | None => True
  | Some title => blank title = true
  end ->
  App.handleEditTodo mutate st srv = (st, srv).
Proof.
  intros Hguard. unfold App.handleEditTodo.
  destruct (App.editingTodo st) as [editing|]; [|reflexivity].
  destruct Hguard as [Hnone|Htitle]; [discriminate|].
  destruct (App.EditFormData.title (App.editFormData st)) as [title|];
    [|reflexivity].
  now rewrite falsy_trim, Htitle.
Qed.

Lemma handleEditTodo_guard_witness :
  (App.editingTodo blank_edit_state = None \/
   match App.EditFormData.title (App.editFormData blank_edit_state) with
   | None => True
   | Some title => blank title = true
   end) /\
  App.handleEditTodo (remote_updateTodo 1010) blank_edit_state [original_todo]
  = (blank_edit_state, [original_todo]).
Proof.
  split; [right; reflexivity|].
  exact (handleEditTodo_guard (remote_updateTodo 1010) blank_edit_state
                              [original_todo] (or_intror eq_refl)).
Defined.

(** ** The header badges *)

Lemma filter_length_split {A : Type} (p : A -> bool) (l : list A) :
  (List.length (filter p l)
   + List.length (filter (fun x => negb (p x)) l))%nat
  = List.length l.
Proof.
  induction l as [|a l IH]; [reflexivity|].
  cbn [filter]. destruct (p a); cbn [negb List.length]; lia.
Qed.

(** X12.  The number shown as remaining, the total minus the completed
    count, is the number of todos of the list that are not completed; it is
    never negative, and the completed count never exceeds the total. *)
Theorem remaining_counts_incomplete (st : App.State) :
  App.remaining st
  = Z.of_nat (List.length
                (filter (fun t => negb (Todo.completed t)) (App.todos st))) /\
  0 <= App.remaining st /\
  0 <= App.completedCount st <= App.totalCount st.
Proof.
  unfold App.remaining, App.totalCount, App.completedCount.
  pose proof (filter_length_split Todo.completed (App.todos st)). lia.
Qed.

(** ** The component and the table together *)

Lemma updateTodo_result_id
      (now : Z) (input : UpdateTodoInput.t) (tbl : Table) (r' : Todo.t) :
  fst (updateTodo now input tbl) = Some r' ->
  Todo.id r' = UpdateTodoInput.id input.
Proof.
  rewrite updateTodo_fst.
  destruct (db_select_where_id (UpdateTodoInput.id input) tbl)
    as [|r0 rest] eqn:E; [discriminate|].
  intros H. injection H as <-.
  assert (H0 : In r0 (db_select_where_id (UpdateTodoInput.id input) tbl))
    by (rewrite E; now left).
  apply filter_In in H0. now apply eq_id_true.
Qed.

Lemma updateTodo_ids (now : Z) (input : UpdateTodoInput.t) (tbl : Table) :
  map Todo.id (snd (updateTodo now input tbl)) = map Todo.id tbl.
Proof.
  rewrite updateTodo_snd, map_map. apply map_ext. intros r.
  now destruct (eq_id (UpdateTodoInput.id input) r).
Qed.

Lemma replace_by_id_ids (i : Z) (r' : Todo.t) (l : list Todo.t) :
  Todo.id r' = i ->
  map Todo.id (App.replace_by_id i r' l) = map Todo.id l.
Proof.
  intros Hid. unfold App.replace_by_id. rewrite map_map. apply map_ext.
  intros t. destruct (Todo.id t =? i) eqn:E; [|reflexivity].
  apply Z.eqb_eq in E. congruence.
Qed.

(** One update seen from both sides: if the list shows the rows of the
    table and ids are unique, replacing by id in the list what the update
    returned gives the rows of the table the update left. *)
Lemma update_in_sync
      (now : Z) (input : UpdateTodoInput.t) (tbl : Table)
      (shown : list Todo.t) (r' : Todo.t) :
  Permutation shown tbl ->
  NoDup (map Todo.id tbl) ->
  fst (updateTodo now input tbl) = Some r' ->
  Permutation (App.replace_by_id (UpdateTodoInput.id input) r' shown)
              (snd (updateTodo now input tbl)).
Proof.
  intros Hperm Hnd Hres.
  rewrite (update_table_replace now input tbl r' Hnd Hres).
  unfold App.replace_by_id. now apply Permutation_map.
Qed.

(** X13.  If the list of the component shows exactly the rows of the table
    (in any order) and ids are unique in the table, then so it is after
    [handleToggleComplete] has run against the [updateTodo] handler, for
    whatever todo it was called. *)
Theorem handleToggleComplete_in_sync
        (now : Z) (todo : Todo.t) (st : App.State) (tbl : Table) :
  Permutation (App.todos st) tbl ->
  NoDup (map Todo.id tbl) ->
  Permutation
    (App.todos
       (fst (App.handleToggleComplete (remote_updateTodo now) todo st tbl)))
    (snd (App.handleToggleComplete (remote_updateTodo now) todo st tbl)) /\
  NoDup (map Todo.id
           (snd (App.handleToggleComplete (remote_updateTodo now) todo st
                                          tbl))).
Proof.
  intros Hperm Hnd. unfold App.handleToggleComplete, remote_updateTodo.
  set (input := UpdateTodoInput.mk (Todo.id todo) None None
                                   (Some (negb (Todo.completed todo)))).
  pose proof (updateTodo_ids now input tbl) as Hids.
  pose proof (update_in_sync now input tbl (App.todos st)) as Hsync.
  pose proof (updateTodo_null_table now input tbl) as Hnull.
  destruct (updateTodo now input tbl) as [[r'|] tbl'];
    cbn [fst snd App.todos App.setTodos] in *.
  - split; [now apply Hsync | now rewrite Hids].
  - rewrite Hnull by reflexivity. now split.
Qed.

Lemma handleToggleComplete_in_sync_witness :
  Permutation (App.todos sample_state) three_todos /\
  NoDup (map Todo.id three_todos) /\
  Permutation
    (App.todos
       (fst (App.handleToggleComplete (remote_updateTodo 1030) original_todo
                                      sample_state three_todos)))
    (snd (App.handleToggleComplete (remote_updateTodo 1030) original_todo
                                   sample_state three_todos)) /\
  NoDup (map Todo.id
           (snd (App.handleToggleComplete (remote_updateTodo 1030)
                                          original_todo sample_state
                                          three_todos))).
Proof.
  assert (H1 : Permutation (App.todos sample_state) three_todos)
    by apply Permutation_refl.
  assert (H2 : NoDup (map Todo.id three_todos)).
  { cbn. repeat constructor; cbn; intuition lia. }
  split; [exact H1|]. split; [exact H2|].
  exact (handleToggleComplete_in_sync 1030 original_todo sample_state
                                      three_todos H1 H2).
Defined.

(** X14.  If the list of the component shows exactly the rows of the table
    (in any order) and ids are unique in the table, then so it is after
    [handleEditTodo] has run against the [updateTodo] handler, whether the
    guard let the request through or not. *)
Theorem handleEditTodo_in_sync
        (now : Z) (st : App.State) (tbl : Table) :
  Permutation (App.todos st) tbl ->
  NoDup (map Todo.id tbl) ->
  Permutation
    (App.todos (fst (App.handleEditTodo (remote_updateTodo now) st tbl)))
    (snd (App.handleEditTodo (remote_updateTodo now) st tbl)) /\
  NoDup (map Todo.id (snd (App.handleEditTodo (remote_updateTodo now) st tbl))).
Proof.
  intros Hperm Hnd. unfold App.handleEditTodo.
  destruct (App.editingTodo st) as [editing|]; [|now split].
  destruct (App.EditFormData.title (App.editFormData st)) as [title|];
    [|now split].
  destruct (falsy (trim title)); [now split|].
  unfold remote_updateTodo.
  cbn [App.editFormData App.setIsLoading].
  set (input := UpdateTodoInput.mk (Todo.id editing) (Some title)
                  (App.EditFormData.description (App.editFormData st)) None).
  pose proof (updateTodo_ids now input tbl) as Hids.
  pose proof (update_in_sync now input tbl (App.todos st)) as Hsync.
  pose proof (updateTodo_null_table now input tbl) as Hnull.
  destruct (updateTodo now input tbl) as [[r'|] tbl'];
    cbn [fst snd App.todos App.setTodos App.setIsLoading
         App.setIsEditDialogOpen App.setEditingTodo App.setEditFormData] in *.
  - split; [now apply Hsync | now rewrite Hids].
  - rewrite Hnull by reflexivity. now split.
Qed.

Lemma handleEditTodo_in_sync_witness :
  Permutation
    (App.todos (App.openEditDialog original_todo sample_state)) three_todos /\
  NoDup (map Todo.id three_todos) /\
  Permutation
    (App.todos
       (fst (App.handleEditTodo (remote_updateTodo 1030)
               (App.openEditDialog original_todo sample_state) three_todos)))
    (snd (App.handleEditTodo (remote_updateTodo 1030)
            (App.openEditDialog original_todo sample_state) three_todos)) /\
  NoDup (map Todo.id
           (snd (App.handleEditTodo (remote_updateTodo 1030)
                   (App.openEditDialog original_todo sample_state)
                   three_todos))).
Proof.
  assert (H1 : Permutation
                 (App.todos (App.openEditDialog original_todo sample_state))
                 three_todos)
    by apply Permutation_refl.
  assert (H2 : NoDup (map Todo.id three_todos)).
  { cbn. repeat constructor; cbn; intuition lia. }
  split; [exact H1|]. split; [exact H2|].
  exact (handleEditTodo_in_sync
           1030 (App.openEditDialog original_todo sample_state) three_todos
           H1 H2).
Defined.

(** X15.  Run against the [updateTodo] handler, [handleToggleComplete] and
    [handleEditTodo] never change which ids the list of the component
    shows, nor their order, whatever the table holds. *)
Theorem update_handlers_keep_shown_ids
        (now : Z) (todo : Todo.t) (st : App.State) (tbl : Table) :
  map Todo.id
      (App.todos
         (fst (App.handleToggleComplete (remote_updateTodo now) todo st tbl)))
  = map Todo.id (App.todos st) /\
  map Todo.id
      (App.todos (fst (App.handleEditTodo (remote_updateTodo now) st tbl)))
  = map Todo.id (App.todos st).
Proof.
  split.
  - unfold App.handleToggleComplete, remote_updateTodo.
    set (input := UpdateTodoInput.mk (Todo.id todo) None None
                                     (Some (negb (Todo.completed todo)))).
    pose proof (updateTodo_result_id now input tbl) as Hid.
    destruct (updateTodo now input tbl) as [[r'|] tbl'];
      cbn [fst snd App.todos App.setTodos] in *; [|reflexivity].
    apply replace_by_id_ids. now apply Hid.
  - unfold App.handleEditTodo.
    destruct (App.editingTodo st) as [editing|]; [|reflexivity].
    destruct (App.EditFormData.title (App.editFormData st)) as [title|];
      [|reflexivity].
    destruct (falsy (trim title)); [reflexivity|].
    unfold remote_updateTodo. cbn [App.editFormData App.setIsLoading].
    set (input := UpdateTodoInput.mk (Todo.id editing) (Some title)
                    (App.EditFormData.description (App.editFormData st)) None).
    pose proof (updateTodo_result_id now input tbl) as Hid.
    destruct (updateTodo now input tbl) as [[r'|] tbl'];
      cbn [fst snd App.todos App.setTodos App.setIsLoading
           App.setIsEditDialogOpen App.setEditingTodo App.setEditFormData]
        in *; [|reflexivity].
    apply replace_by_id_ids. now apply Hid.
Qed.

(** X16.  Whatever the remote delete does, [handleDeleteTodo] makes it once
    and never adds to the list or touches a todo with another id: those
    are shown afterwards as before, in the same order.  Only when the call
    resolves to true does the list change, and then no todo with the id is
    left in it. *)
Theorem handleDeleteTodo_list
        {S : Type}
        (mutate : DeleteTodoInput.t -> S -> App.Remote bool * S)
        (todoId : Z) (st : App.State) (srv : S) :
  snd (App.handleDeleteTodo mutate todoId st srv)
  = snd (mutate (DeleteTodoInput.mk todoId) srv) /\
  filter (fun t => negb (Todo.id t =? todoId))
         (App.todos (fst (App.handleDeleteTodo mutate todoId st srv)))
  = filter (fun t => negb (Todo.id t =? todoId)) (App.todos st) /\
  (fst (mutate (DeleteTodoInput.mk todoId) srv) = App.Resolved true ->
   forall t,
     In t (App.todos (fst (App.handleDeleteTodo mutate todoId st srv))) ->
     Todo.id t <> todoId) /\
  (fst (mutate (DeleteTodoInput.mk todoId) srv) <> App.Resolved true ->
   fst (App.handleDeleteTodo mutate todoId st srv) = st).
Proof.
  unfold App.handleDeleteTodo.
  destruct (mutate (DeleteTodoInput.mk todoId) srv) as [[[|]|] srv'];
    cbn [fst snd App.todos App.setTodos].
  - split; [reflexivity|]. split; [|split].
    + induction (App.todos st) as [|a l IH]; [reflexivity|].
      cbn [filter]. destruct (negb (Todo.id a =? todoId)) eqn:E.
      * cbn [filter]. rewrite E. now f_equal.
      * exact IH.
    + intros _ t Ht. apply filter_In in Ht. destruct Ht as [_ Ht].
      apply negb_true_iff, Z.eqb_neq in Ht. exact Ht.
    + intros H. now elim H.
  - repeat split; try reflexivity. intros H. discriminate.
  - repeat split; try reflexivity. intros H. discriminate.
Qed.

(** X17.  Opening the edit dialog on a todo that is the stored record for
    its id and whose title is not blank, and submitting the form as it
    was filled in, changes nothing of the stored record but [updated_at],
    which becomes the clock reading of the update; the dialog is closed,
    no todo is being edited and the loading flag is down. *)
Theorem edit_unchanged_keeps_record
        (now : Z) (todo : Todo.t) (st : App.State) (tbl : Table) :
  fst (getTodo (id_of (Todo.id todo)) tbl) = Some todo ->
  blank (Todo.title todo) = false ->
  let result := App.handleEditTodo (remote_updateTodo now)
                                   (App.openEditDialog todo st) tbl in
  fst (getTodo (id_of (Todo.id todo)) (snd result))
  = Some (Todo.mk (Todo.id todo) (Todo.title todo) (Todo.description todo)
                  (Todo.completed todo) (Todo.created_at todo) now) /\
  App.isEditDialogOpen (fst result) = false /\
  App.editingTodo (fst result) = None /\
  App.isLoading (fst result) = false.
Proof.
  intros Hget Hblank result. subst result.
  unfold App.handleEditTodo, App.openEditDialog.
  cbn [App.editingTodo App.editFormData App.setEditingTodo
       App.setEditFormData App.setIsEditDialogOpen App.EditFormData.title
       App.EditFormData.description App.setIsLoading].
  rewrite falsy_trim, Hblank. unfold remote_updateTodo.
  set (input := UpdateTodoInput.mk (Todo.id todo) (Some (Todo.title todo))
                                   (Some (Todo.description todo)) None).
  destruct (updateTodo_found now input tbl todo Hget) as [Hres Hstored].
  destruct (updateTodo now input tbl) as [res tbl'].
  cbn [fst snd] in Hres, Hstored. subst res.
  cbn [fst snd App.isEditDialogOpen App.editingTodo App.isLoading
       App.setTodos App.setIsEditDialogOpen App.setEditingTodo
       App.setEditFormData App.setIsLoading].
  split; [|repeat split].
  cbn [UpdateTodoInput.id input] in Hstored. rewrite Hstored.
  reflexivity.
Qed.

Lemma edit_unchanged_keeps_record_witness :
  fst (getTodo (id_of (Todo.id original_todo)) [original_todo])
  = Some original_todo /\
  blank (Todo.title original_todo) = false /\
  let result := App.handleEditTodo (remote_updateTodo 1010)
                  (App.openEditDialog original_todo App.initial)
                  [original_todo] in
  fst (getTodo (id_of (Todo.id original_todo)) (snd result))
  = Some (Todo.mk (Todo.id original_todo) (Todo.title original_todo)
                  (Todo.description original_todo)
                  (Todo.completed original_todo)
                  (Todo.created_at original_todo) 1010) /\
  App.isEditDialogOpen (fst result) = false /\
  App.editingTodo (fst result) = None /\
  App.isLoading (fst result) = false.
Proof.
  split; [reflexivity|]. split; [reflexivity|].
  exact (edit_unchanged_keeps_record 1010 original_todo App.initial
                                     [original_todo] eq_refl eq_refl).
Defined.

(** X18.  [handleToggleComplete] sets rather than flips: called for a todo
    whose id has the stored record [r], it leaves as stored record [r]
    with [completed] the negation of the flag of the todo it was called
    for (whatever the stored flag was) and [updated_at] the clock reading;
    title, description, id and creation time are those of [r]. *)
Theorem handleToggleComplete_sets_flag
        (now : Z) (todo r : Todo.t) (st : App.State) (tbl : Table) :
  fst (getTodo (id_of (Todo.id todo)) tbl) = Some r ->
  fst (getTodo (id_of (Todo.id todo))
               (snd (App.handleToggleComplete (remote_updateTodo now) todo st
                                              tbl)))
  = Some (Todo.mk (Todo.id r) (Todo.title r) (Todo.description r)
                  (negb (Todo.completed todo)) (Todo.created_at r) now).
Proof.
  intros Hget. unfold App.handleToggleComplete, remote_updateTodo.
  set (input := UpdateTodoInput.mk (Todo.id todo) None None
                                   (Some (negb (Todo.completed todo)))).
  destruct (updateTodo_found now input tbl r Hget) as [Hres Hstored].
  destruct (updateTodo now input tbl) as [res tbl'].
  cbn [fst snd] in Hres, Hstored. subst res. cbn [fst snd].
  cbn [UpdateTodoInput.id input] in Hstored. rewrite Hstored. reflexivity.
Qed.

Lemma handleToggleComplete_sets_flag_witness :
  fst (getTodo (id_of (Todo.id original_todo))
               [Todo.mk 1 "Original Todo" (Some "Original description") true
                        1000 1005])
  = Some (Todo.mk 1 "Original Todo" (Some "Original description") true
                  1000 1005) /\
  fst (getTodo (id_of (Todo.id original_todo))
               (snd (App.handleToggleComplete
                       (remote_updateTodo 1010) original_todo App.initial
                       [Todo.mk 1 "Original Todo" (Some "Original description")
                                true 1000 1005])))
  = Some (Todo.mk 1 "Original Todo" (Some "Original description")
                  (negb (Todo.completed original_todo)) 1000 1010).
Proof.
  split; [reflexivity|].
  exact (handleToggleComplete_sets_flag
           1010 original_todo
           (Todo.mk 1 "Original Todo" (Some "Original description") true
                    1000 1005)
           App.initial
           [Todo.mk 1 "Original Todo" (Some "Original description") true
                    1000 1005]
           eq_refl).
Defined.

(** X19.  After [handleCreateTodo] went through with a title that is not
    blank and the remote call resolved, the new todo heads the list, the
    dialog is closed, the loading flag is down and the form is reset, so
    that submitting again at once returns at the guard: no second call is
    made and nothing changes. *)
Theorem handleCreateTodo_then_resubmit
        {S : Type} (mutate : CreateTodoInput.t -> S -> App.Remote Todo.t * S)
        (st : App.State) (srv : S) (newTodo : Todo.t) :
  blank (CreateTodoInput.title (App.createFormData st)) = false ->
  fst (mutate (App.createFormData st) srv) = App.Resolved newTodo ->
  let st' := fst (App.handleCreateTodo mutate st srv) in
  App.todos st' = newTodo :: App.todos st /\
  App.isCreateDialogOpen st' = false /\
  App.isLoading st' = false /\
  snd (App.handleCreateTodo mutate st srv)
  = snd (mutate (App.createFormData st) srv) /\
  (forall (mutate2 : CreateTodoInput.t -> S -> App.Remote Todo.t * S)
          (srv2 : S),
      App.handleCreateTodo mutate2 st' srv2 = (st', srv2)).
Proof.
  intros Hblank Hres st'.
  assert (E : App.handleCreateTodo mutate st srv
              = (App.mkState (newTodo :: App.todos st) false
                             (App.editingTodo st) false
                             (App.isEditDialogOpen st)
                             (CreateTodoInput.mk "" (Some None))
                             (App.editFormData st),
                 snd (mutate (App.createFormData st) srv))).
  { unfold App.handleCreateTodo. rewrite falsy_trim, Hblank.
    cbn [App.createFormData App.setIsLoading].
    destruct (mutate (App.createFormData st) srv) as [res srv'].
    cbn [fst] in Hres. subst res. reflexivity. }
  subst st'. rewrite E. cbn [fst snd].
  split; [reflexivity|]. split; [reflexivity|]. split; [reflexivity|].
  split; [reflexivity|].
  intros mutate2 srv2. apply handleCreateTodo_blank_title_aux. reflexivity.
Qed.

Lemma handleCreateTodo_then_resubmit_witness :
  blank (CreateTodoInput.title
           (App.createFormData (App.onChangeCreateTitle "Test Todo"
                                                        App.initial)))
  = false /\
  fst (remote_createTodo 1000 1000
         (App.createFormData (App.onChangeCreateTitle "Test Todo" App.initial))
         [])
  = App.Resolved (Todo.mk 0 "Test Todo" None false 1000 1000) /\
  let st' := fst (App.handleCreateTodo
                    (remote_createTodo 1000 1000)
                    (App.onChangeCreateTitle "Test Todo" App.initial) []) in
  App.todos st'
  = Todo.mk 0 "Test Todo" None false 1000 1000
    :: App.todos (App.onChangeCreateTitle "Test Todo" App.initial) /\
  App.isCreateDialogOpen st' = false /\
  App.isLoading st' = false /\
  snd (App.handleCreateTodo
         (remote_createTodo 1000 1000)
         (App.onChangeCreateTitle "Test Todo" App.initial) [])
  = snd (remote_createTodo 1000 1000
           (App.createFormData
              (App.onChangeCreateTitle "Test Todo" App.initial)) []) /\
  (forall (mutate2 : CreateTodoInput.t -> Table -> App.Remote Todo.t * Table)
          (srv2 : Table),
      App.handleCreateTodo mutate2 st' srv2 = (st', srv2)).
Proof.
  split; [reflexivity|]. split; [reflexivity|].
  exact (handleCreateTodo_then_resubmit
           (remote_createTodo 1000 1000)
           (App.onChangeCreateTitle "Test Todo" App.initial) []
           (Todo.mk 0 "Test Todo" None false 1000 1000) eq_refl eq_refl).
Defined.

(** ** What the update handlers of the component never do *)

Lemma updateTodo_column {A : Type} (f : Todo.t -> A)
      (now : Z) (input : UpdateTodoInput.t) (tbl : Table) :
  (forall r, f (set_row (updateData_of now input) r) = f r) ->
  map f (snd (updateTodo now input tbl)) = map f tbl.
Proof.
  intros Hf. rewrite updateTodo_snd, map_map. apply map_ext. intros r.
  destruct (eq_id (UpdateTodoInput.id input) r); [apply Hf | reflexivity].
Qed.

(** X20.  Run against the [updateTodo] handler, [handleToggleComplete]
    changes no title and no description of the table, and
    [handleEditTodo] changes no completed flag and never stores a blank
    title: every row it leaves was there before or has a title that is
    not blank. *)
Theorem update_handlers_never
        (now : Z) (todo : Todo.t) (st : App.State) (tbl : Table) :
  (let tbl' := snd (App.handleToggleComplete (remote_updateTodo now) todo st
                                             tbl) in
   map Todo.title tbl' = map Todo.title tbl /\
   map Todo.description tbl' = map Todo.description tbl) /\
  (let tbl' := snd (App.handleEditTodo (remote_updateTodo now) st tbl) in
   map Todo.completed tbl' = map Todo.completed tbl /\
   forall r', In r' tbl' -> In r' tbl \/ blank (Todo.title r') = false).
Proof.
  split.
  - unfold App.handleToggleComplete, remote_updateTodo.
    set (input := UpdateTodoInput.mk (Todo.id todo) None None
                                     (Some (negb (Todo.completed todo)))).
    pose proof (updateTodo_column Todo.title now input tbl) as Ht.
    pose proof (updateTodo_column Todo.description now input tbl) as Hd.
    destruct (updateTodo now input tbl) as [[r'|] tbl']; cbn [fst snd] in *;
      (split; [apply Ht | apply Hd]); reflexivity.
  - unfold App.handleEditTodo.
    destruct (App.editingTodo st) as [editing|]; [|cbn; auto].
    destruct (App.EditFormData.title (App.editFormData st)) as [title|];
      [|cbn; auto].
    destruct (falsy (trim title)) eqn:Eblank; [cbn; auto|].
    rewrite falsy_trim in Eblank.
    unfold remote_updateTodo. cbn [App.editFormData App.setIsLoading].
    set (input := UpdateTodoInput.mk (Todo.id editing) (Some title)
                    (App.EditFormData.description (App.editFormData st)) None).
    pose proof (updateTodo_column Todo.completed now input tbl) as Hc.
    assert (Hrows : forall r', In r' (snd (updateTodo now input tbl)) ->
                               In r' tbl \/ blank (Todo.title r') = false).
    { intros r' Hr'. rewrite updateTodo_snd in Hr'.
      apply in_map_iff in Hr'. destruct Hr' as [r [Hr Hin]].
      destruct (eq_id (UpdateTodoInput.id input) r).
      - right. subst r'. exact Eblank.
      - left. now subst r'. }
    destruct (updateTodo now input tbl) as [[r'|] tbl']; cbn [fst snd] in *;
      (split; [apply Hc; reflexivity | exact Hrows]).
Qed.

(** ** The component on concrete inputs *)

Example trim_both_ends : trim "  buy milk   " = "buy milk".
Proof. reflexivity. Qed.

Example trim_white_space_only : trim "   " = "".
Proof. reflexivity. Qed.

Example toggle_second_of_three :
  App.handleToggleComplete
    (remote_updateTodo 1030)
    (Todo.mk 2 "Second Todo" (Some "Second description") true 1010 1010)
    sample_state three_todos
  = (App.mkState
       [ Todo.mk 1 "First Todo" (Some "First description") false 1000 1000;
         Todo.mk 2 "Second Todo" (Some "Second description") false 1010 1030;
         Todo.mk 3 "Third Todo" None false 1010 1020 ]
       false None false false
       (CreateTodoInput.mk "" (Some None))
       (App.EditFormData.mk (Some "") (Some None)),
     [ Todo.mk 1 "First Todo" (Some "First description") false 1000 1000;
       Todo.mk 2 "Second Todo" (Some "Second description") false 1010 1030;
       Todo.mk 3 "Third Todo" None false 1010 1020 ]).
Proof. reflexivity. Qed.

Example edit_clears_description :
  snd (App.handleEditTodo
         (remote_updateTodo 1030)
         (App.onChangeEditDescription ""
            (App.openEditDialog
               (Todo.mk 2 "Second Todo" (Some "Second description") true
                        1010 1010)
               sample_state))
         three_todos)
  = [ Todo.mk 1 "First Todo" (Some "First description") false 1000 1000;
      Todo.mk 2 "Second Todo" None true 1010 1030;
      Todo.mk 3 "Third Todo" None false 1010 1020 ].
Proof. reflexivity. Qed.

Example badges_of_three :
  App.completedCount sample_state = 1 /\ App.remaining sample_state = 2.
Proof. split; reflexivity. Qed.
